(** * Roll-call absentee reports: a shallow embedding of the report logic

    The development follows three source files of the repository:

    - the [StudentAbsenteeHours] React component (session durations,
      per-student aggregation, risk tiers, load / error / cache logic);
    - [src/pages/Reports.tsx] (report loading, date filter, CSV export,
      grouping by field);
    - [api_update/get_student_absentee_hours.php] (the HTTP handler).

    JavaScript numbers are modelled as exact rationals extended with [NaN]
    (IEEE rounding is abstracted away; every quantity the program computes
    is a small multiple of a minute or a sum of such).  JavaScript strings
    are [string]; arrays are [list]; values typed [any] coming from JSON are
    [jsval]. *)

From Stdlib Require Import ZArith QArith Qminmax String Ascii List Bool Lia Lqa Permutation.
Import ListNotations.

Open Scope string_scope.
Open Scope Z_scope.

(** ** JavaScript numbers *)

Module JsNum.

Inductive jsnum : Type :=
| Num (q : Q)
| NaN.

(** Numeric equality of results: rationals up to [Qeq], [NaN] only with
    itself (this is equality of the values, not the [===] of the language). *)
Definition eqv (a b : jsnum) : Prop :=
  match a, b with
  | Num x, Num y => (x == y)%Q
  | NaN, NaN => True
  | _, _ => False
  end.

Definition of_Z (z : Z) : jsnum := Num (inject_Z z).

Definition add (a b : jsnum) : jsnum :=
  match a, b with
  | Num x, Num y => Num (x + y)
  | _, _ => NaN
  end.

Definition sub (a b : jsnum) : jsnum :=
  match a, b with
  | Num x, Num y => Num (x - y)
  | _, _ => NaN
  end.

(** Division by a non-zero constant (the only use in the program). *)
Definition div (a b : jsnum) : jsnum :=
  match a, b with
  | Num x, Num y => if Qeq_bool y 0 then NaN else Num (x / y)
  | _, _ => NaN
  end.

(** [Math.max]: [NaN] as soon as one argument is [NaN]. *)
Definition max (a b : jsnum) : jsnum :=
  match a, b with
  | Num x, Num y => if Qle_bool x y then Num y else Num x
  | _, _ => NaN
  end.

(** [a >= b]: false as soon as one side is [NaN]. *)
Definition geb (a b : jsnum) : bool :=
  match a, b with
  | Num x, Num y => Qle_bool y x
  | _, _ => false
  end.

(** [a <= b]. *)
Definition leb (a b : jsnum) : bool := geb b a.

(** [a < b], as a proposition over the numeric values. *)
Definition lt (a b : jsnum) : Prop :=
  match a, b with
  | Num x, Num y => (x < y)%Q
  | _, _ => False
  end.

Definition ge (a b : jsnum) : Prop :=
  match a, b with
  | Num x, Num y => (y <= x)%Q
  | _, _ => False
  end.

End JsNum.
Import JsNum.

Declare Scope js_scope.
Delimit Scope js_scope with js.
Infix "+" := JsNum.add : js_scope.
Infix "-" := JsNum.sub : js_scope.
Infix "/" := JsNum.div : js_scope.
Infix "≡" := JsNum.eqv (at level 70) : js_scope.

(** ** Values of type [any] (decoded JSON) and results of fallible code *)

Inductive jsval : Type :=
| JUndefined
| JNull
| JBool (b : bool)
| JNumber (n : jsnum)
| JString (s : string).

(** [!v] is [negb (truthy v)]. *)
Definition truthy (v : jsval) : bool :=
  match v with
  | JUndefined | JNull => false
  | JBool b => b
  | JNumber (Num q) => negb (Qeq_bool q 0)
  | JNumber NaN => false
  | JString s => negb (s =? "")%string
  end.

(** [v === s] for a string [s]. *)
Definition strict_eq_string (v : jsval) (s : string) : bool :=
  match v with
  | JString t => (t =? s)%string
  | _ => false
  end.

(** Template-literal interpolation of a possibly missing string. *)
Definition interpolate (v : option string) : string :=
  match v with
  | Some s => s
  | None => "undefined"
  end.

Inductive result (A : Type) : Type :=
| Ok (a : A)
| Throw (e : string).
Arguments Ok {A} a.
Arguments Throw {A} e.

(** ** [String.prototype.split] and [Array.prototype.join] *)

(** [split_go sep skip cur s]: [cur] is the piece being read, [skip] the
    number of characters of a matched separator still to drop. *)
Fixpoint split_go (sep : string) (skip : nat) (cur : string) (s : string)
  : list string :=
  match s with
  | EmptyString => [cur]
  | String c s' =>
      match skip with
      | S k => split_go sep k cur s'
      | O =>
          if prefix sep s
          then cur :: split_go sep (String.length sep - 1) "" s'
          else split_go sep 0 (cur ++ String c "") s'
      end
  end.

Definition split (sep : string) (s : string) : list string :=
  match sep with
  | EmptyString => map (fun c => String c "") (list_ascii_of_string s)
  | _ => split_go sep 0 "" s
  end.

Definition join (sep : string) (l : list string) : string :=
  String.concat sep l.

(** ** Decimal fields *)

Definition digit_val (c : ascii) : option Z :=
  let n := Z.of_nat (nat_of_ascii c) in
  if (48 <=? n) && (n <=? 57) then Some (n - 48) else None.

Fixpoint digits_val (acc : Z) (s : string) : option Z :=
  match s with
  | EmptyString => Some acc
  | String c s' =>
      match digit_val c with
      | Some d => digits_val (10 * acc + d) s'
      | None => None
      end
  end.

(** A field of exactly [n] decimal digits. *)
Definition parse_num (n : nat) (s : string) : option Z :=
  if (String.length s =? n)%nat then digits_val 0 s else None.

(** ** The [Date] fragment the program uses *)

Module JsDate.

Definition msPerDay : Z := 86400000.

(** Days between 1970-01-01 and the civil date [y-m-d] (proleptic
    Gregorian calendar). *)
Definition days_from_civil (y m d : Z) : Z :=
  let y' := if m <=? 2 then y - 1 else y in
  let era := y' / 400 in
  let yoe := y' - era * 400 in
  let mp := (m + 9) mod 12 in
  let doy := (153 * mp + 2) / 5 + d - 1 in
  let doe := yoe * 365 + yoe / 4 - yoe / 100 + doy in
  era * 146097 + doe - 719468.

Definition char_at (n : nat) (s : string) : option ascii := String.get n s.

Definition is_char (c : ascii) (o : option ascii) : bool :=
  match o with
  | Some c' => Ascii.eqb c c'
  | None => false
  end.

(** ["YYYY-MM-DD"] to a day number. *)
Definition parse_date (s : string) : option Z :=
  match parse_num 4 (substring 0 4 s),
        parse_num 2 (substring 5 2 s),
        parse_num 2 (substring 8 2 s) with
  | Some y, Some m, Some d =>
      if is_char "-" (char_at 4 s) && is_char "-" (char_at 7 s)
         && (1 <=? m) && (m <=? 12) && (1 <=? d) && (d <=? 31)
      then Some (days_from_civil y m d)
      else None
  | _, _, _ => None
  end.

(** ["HH:MM"], ["HH:MM:SS"] or ["HH:MM:SS.sssZ"] to milliseconds since
    midnight; the boolean tells whether the time is given in UTC. *)
Definition parse_time (s : string) : option (Z * bool) :=
  match parse_num 2 (substring 0 2 s), parse_num 2 (substring 3 2 s) with
  | Some h, Some mi =>
      if is_char ":" (char_at 2 s) && (h <=? 23) && (mi <=? 59) then
        let hm := (h * 60 + mi) * 60000 in
        match String.length s with
        | 5%nat => Some (hm, false)
        | 8%nat =>
            match parse_num 2 (substring 6 2 s) with
            | Some sec =>
                if is_char ":" (char_at 5 s) && (sec <=? 59)
                then Some (hm + sec * 1000, false)
                else None
            | None => None
            end
        | 13%nat =>
            match parse_num 2 (substring 6 2 s),
                  parse_num 3 (substring 9 3 s) with
            | Some sec, Some ms =>
                if is_char ":" (char_at 5 s) && (sec <=? 59)
                   && is_char "." (char_at 8 s) && is_char "Z" (char_at 12 s)
                then Some (hm + sec * 1000 + ms, true)
                else None
            | _, _ => None
            end
        | _ => None
        end
      else None
  | _, _ => None
  end.

(** A [Date] object: its time value, or [None] for "Invalid Date". *)
Definition t : Type := option Z.

(** [d.getTime()], also the number a date is compared as. *)
Definition getTime (d : t) : jsnum :=
  match d with
  | Some ms => of_Z ms
  | None => NaN
  end.

Section Zone.

(** Offset of local time from UTC in milliseconds ([local = utc + tz]),
    taken constant: daylight-saving changes are not modelled. *)
Variable tz : Z.

(** [new Date(s)]: the time value in milliseconds since the epoch, [None]
    for an invalid date.  A date alone is UTC midnight; a date followed by
    a time is local time unless it ends in [Z].  These are the formats the
    program builds or receives; engines accept some further spellings,
    which are taken as invalid here and on which no result below relies
    (a malformed slot is shown invalid through its missing end, the text
    ["undefined"]). *)
Definition parse (s : string) : t :=
  match parse_date (substring 0 10 s) with
  | None => None
  | Some days =>
      if (String.length s =? 10)%nat then Some (days * msPerDay)
      else if is_char " " (char_at 10 s) || is_char "T" (char_at 10 s) then
        match parse_time (substring 11 (String.length s - 11) s) with
        | Some (ms, utc) =>
            Some (days * msPerDay + ms - (if utc then 0 else tz))
        | None => None
        end
      else None
  end.

(** [d.setHours(23, 59, 59, 999)]: the end of the local day that contains
    the time value of [d]; an invalid date stays invalid. *)
Definition setHours_23_59_59_999 (d : t) : t :=
  match d with
  | Some t =>
      let localDay := (t + tz) / msPerDay in
      Some (localDay * msPerDay
            + ((23 * 60 + 59) * 60 + 59) * 1000 + 999 - tz)
  | None => None
  end.

End Zone.

End JsDate.

(** ** The [StudentAbsenteeHours] component *)

Module Student.
Record t : Type := mk
  { id : string; name : string; matricule : string;
    field : string; level : string }.
End Student.

(** A row of the absentee endpoint, as decoded from JSON (typed [any] in
    the component). *)
Module Absence.
Record t : Type := mk
  { studentId : jsval; matricule : jsval; date : jsval;
    courseTitle : jsval; courseCode : jsval; timeSlot : jsval }.
End Absence.

Module Session.
Record t : Type := mk
  { date : jsval; course : jsval; courseCode : jsval;
    duration : jsnum; timeSlot : jsval }.
End Session.

Module Hours.
Record t : Type := mk
  { studentId : string; studentName : string; matricule : string;
    field : string; level : string;
    totalAbsentHours : jsnum; absentSessions : list Session.t }.
End Hours.

Section Component.

Variable tz : Z.

(** The body of the [try] block. *)
Definition sessionDurationBody (timeSlot : jsval) : result jsnum :=
  match timeSlot with
  | JString s =>
      let parts := split " - " s in
      let startTime := nth_error parts 0 in
      let endTime := nth_error parts 1 in
      let start := JsDate.parse tz ("2000-01-01 " ++ interpolate startTime) in
      let end_ := JsDate.parse tz ("2000-01-01 " ++ interpolate endTime) in
      let diffInMs := (JsDate.getTime end_ - JsDate.getTime start)%js in
      let diffInHours := (diffInMs / of_Z (1000 * 60 * 60))%js in
      Ok (JsNum.max diffInHours (of_Z 1))
  | _ => Throw "TypeError: timeSlot.split is not a function"
  end.

Definition calculateSessionDuration (timeSlot : jsval) : jsnum :=
  if negb (truthy timeSlot) then of_Z 2
  else
    match sessionDurationBody timeSlot with
    | Ok v => v
    | Throw _ => of_Z 2
    end.

(** Lines 46-72: the entry computed for one student. *)
Definition matchesStudent (student : Student.t) (record : Absence.t) : bool :=
  strict_eq_string (Absence.studentId record) (Student.id student)
  || strict_eq_string (Absence.matricule record) (Student.matricule student).

Definition toSession (absence : Absence.t) : Session.t :=
  {| Session.date := Absence.date absence;
     Session.course := Absence.courseTitle absence;
     Session.courseCode := Absence.courseCode absence;
     Session.duration := calculateSessionDuration (Absence.timeSlot absence);
     Session.timeSlot := Absence.timeSlot absence |}.

Definition studentHours (absenteeData : list Absence.t) (student : Student.t)
  : Hours.t :=
  let studentAbsences := filter (matchesStudent student) absenteeData in
  let absentSessions := map toSession studentAbsences in
  let totalAbsentHours :=
    fold_left (fun sum session => (sum + Session.duration session)%js)
              absentSessions (of_Z 0) in
  {| Hours.studentId := Student.id student;
     Hours.studentName := Student.name student;
     Hours.matricule := Student.matricule student;
     Hours.field := Student.field student;
     Hours.level := Student.level student;
     Hours.totalAbsentHours := totalAbsentHours;
     Hours.absentSessions := absentSessions |}.

Definition hoursData (students : list Student.t)
           (absenteeData : list Absence.t) : list Hours.t :=
  map (studentHours absenteeData) students.

(** Component state and the effect of one run of [loadAbsenteeHours]:
    [api] is the outcome of [APIService.getStudentAbsenteeHours()], [cache]
    the entry stored under ['rollcall_cached_absentee_hours'] (if any). *)
Record State : Type := mkState
  { absenteeHours : list Hours.t;
    loading : bool;
    error : option string;
    selectedField : string }.

Definition loadAbsenteeHours (students : list Student.t)
           (api : result (list Absence.t)) (cache : option (list Hours.t))
           (st : State) : State * option (list Hours.t) :=
  match api with
  | Ok absenteeData =>
      let data := hoursData students absenteeData in
      ({| absenteeHours := data; loading := false; error := None;
          selectedField := selectedField st |},
       Some data)
  | Throw _ =>
      let shown :=
        match cache with
        | Some cachedData => cachedData
        | None => absenteeHours st
        end in
      ({| absenteeHours := shown; loading := false;
          error := Some "Failed to load absentee hours data. Please try again.";
          selectedField := selectedField st |},
       cache)
  end.

End Component.

Definition getFilteredData (st : State) : list Hours.t :=
  if (selectedField st =? "")%string then absenteeHours st
  else filter (fun data => (Hours.field data =? selectedField st)%string)
              (absenteeHours st).

(** The label of the risk-level cell. *)
Definition riskLevel (totalAbsentHours : jsnum) : string :=
  if geb totalAbsentHours (of_Z 15) then "Critical"
  else if geb totalAbsentHours (of_Z 10) then "High"
  else if geb totalAbsentHours (of_Z 5) then "Medium"
  else "Low".

(** What the component returns: the spinner, the error panel with its
    "Try Again" button (which calls [loadAbsenteeHours]), or the table. *)
Inductive View : Type :=
| LoadingView
| ErrorView (message : string) (tryAgain : bool)
| TableView (rows : list (Hours.t * string)).

Definition tableOf (st : State) : View :=
  TableView (map (fun data => (data, riskLevel (Hours.totalAbsentHours data)))
                 (getFilteredData st)).

Definition render (st : State) : View :=
  if loading st then LoadingView
  else
    match error st with
    | Some message =>
        if negb (message =? "")%string then ErrorView message true
        else tableOf st
    | None => tableOf st
    end.

(** ** [src/pages/Reports.tsx] *)

Module AbsenteeRecord.
Record t : Type := mk
  { studentName : string; matricule : string; fieldName : string;
    level : string; courseTitle : string; courseCode : string;
    parentName : string; parentPhone : string; date : string }.
End AbsenteeRecord.

Module FilterState.
Record t : Type := mk
  { dateFrom : string; dateTo : string; fieldName : string;
    level : string; reportType : string }.
End FilterState.

Module Group.
Record t : Type := mk
  { fieldName : string; records : list AbsenteeRecord.t; count : nat }.
End Group.

(** Plain objects used as string-keyed tables: the own properties in
    creation order, over the properties every object inherits from
    [Object.prototype]. *)
Module JsObject.

Definition t (V : Type) : Type := list (string * V).

Definition inheritedNames : list string :=
  [ "constructor"; "__proto__"; "hasOwnProperty"; "isPrototypeOf";
    "propertyIsEnumerable"; "toLocaleString"; "toString"; "valueOf";
    "__defineGetter__"; "__defineSetter__";
    "__lookupGetter__"; "__lookupSetter__" ].

Definition inherited (key : string) : bool :=
  existsb (String.eqb key) inheritedNames.

Fixpoint own {V : Type} (key : string) (o : t V) : option V :=
  match o with
  | [] => None
  | (k, v) :: o' => if (k =? key)%string then Some v else own key o'
  end.

(** Update of an existing own property (its position is kept). *)
Fixpoint update {V : Type} (key : string) (f : V -> V) (o : t V) : t V :=
  match o with
  | [] => []
  | (k, v) :: o' =>
      if (k =? key)%string then (k, f v) :: o'
      else (k, v) :: update key f o'
  end.

(** Creation of a new own property. *)
Definition define {V : Type} (key : string) (v : V) (o : t V) : t V :=
  (o ++ [(key, v)])%list.

(** Array indices: canonical decimal strings below [2^32 - 1]. *)
Definition arrayIndex (key : string) : option Z :=
  match key with
  | EmptyString => None
  | String c rest =>
      match digits_val 0 key with
      | Some n =>
          if ((negb (Ascii.eqb c "0") || (rest =? "")%string)
              && (n <? 4294967295))%bool
          then Some n else None
      | None => None
      end
  end.

Fixpoint insertByIndex {V : Type} (n : Z) (e : string * V)
         (l : list (Z * (string * V))) : list (Z * (string * V)) :=
  match l with
  | [] => [(n, e)]
  | (m, e') :: l' =>
      if n <=? m then (n, e) :: l else (m, e') :: insertByIndex n e l'
  end.

Fixpoint indexed {V : Type} (o : t V) : list (Z * (string * V)) :=
  match o with
  | [] => []
  | (k, v) :: o' =>
      match arrayIndex k with
      | Some n => insertByIndex n (k, v) (indexed o')
      | None => indexed o'
      end
  end.

Definition named {V : Type} (o : t V) : list (string * V) :=
  filter (fun e => match arrayIndex (fst e) with Some _ => false | None => true end) o.

(** [Object.entries]: array-index keys in ascending order, then the other
    keys in creation order. *)
Definition entries {V : Type} (o : t V) : list (string * V) :=
  (map snd (indexed o) ++ named o)%list.

End JsObject.

Module Reports.

Definition newline : string := String (ascii_of_nat 10) "".

Record State : Type := mkState
  { absentees : list AbsenteeRecord.t;
    loading : bool;
    error : option string }.

Section Platform.

Variable tz : Z.

(** [d.toLocaleDateString()] as a function of the time value of [d];
    its format depends on the locale of the browser. *)
Variable toLocaleDateString : JsDate.t -> string.

(** Lines 79-86: the date filter. *)
Definition fromDate (filters : FilterState.t) : JsDate.t :=
  JsDate.parse tz (FilterState.dateFrom filters).

Definition toDate (filters : FilterState.t) : JsDate.t :=
  JsDate.setHours_23_59_59_999 tz
    (JsDate.parse tz (FilterState.dateTo filters)).

Definition inDateRange (filters : FilterState.t) (record : AbsenteeRecord.t)
  : bool :=
  let recordDate := JsDate.parse tz (AbsenteeRecord.date record) in
  geb (JsDate.getTime recordDate) (JsDate.getTime (fromDate filters))
  && leb (JsDate.getTime recordDate) (JsDate.getTime (toDate filters)).

Definition applyFilters (filters : FilterState.t)
           (reportData : list AbsenteeRecord.t) : list AbsenteeRecord.t :=
  let filteredData := reportData in
  let filteredData :=
    if negb (FilterState.fieldName filters =? "")%string
    then filter (fun record =>
                   (AbsenteeRecord.fieldName record =? FilterState.fieldName filters)%string)
                filteredData
    else filteredData in
  let filteredData :=
    if negb (FilterState.level filters =? "")%string
    then filter (fun record =>
                   (AbsenteeRecord.level record =? FilterState.level filters)%string)
                filteredData
    else filteredData in
  filter (inDateRange filters) filteredData.

(** One run of [loadAbsenteeReport]: [api] is the outcome of
    [APIService.getAbsenteeReport], [localRecords] the entry stored under
    ['rollcall_absentee_records'].  The second component is the value
    written under ['rollcall_cached_reports'], if any. *)
Definition loadAbsenteeReport (filters : FilterState.t)
           (api : result (list AbsenteeRecord.t))
           (localRecords : option (list AbsenteeRecord.t))
  : State * option (list AbsenteeRecord.t) :=
  let reportData :=
    match api with
    | Ok data => data
    | Throw _ =>
        match localRecords with
        | Some localAbsentees => localAbsentees
        | None => []
        end
    end in
  let filteredData := applyFilters filters reportData in
  ({| absentees := filteredData; loading := false; error := None |},
   if (0 <? length filteredData)%nat then Some filteredData else None).

(** Lines 134-146: the text of the exported file. *)
Definition csvHeader : string :=
  join "," ["Student Name"; "Matricule"; "Field"; "Level"; "Course";
            "Parent Name"; "Parent Phone"; "Date"].

Definition csvFields (record : AbsenteeRecord.t) : list string :=
  [ AbsenteeRecord.studentName record;
    AbsenteeRecord.matricule record;
    AbsenteeRecord.fieldName record;
    AbsenteeRecord.level record;
    AbsenteeRecord.courseTitle record ++ " ("
      ++ AbsenteeRecord.courseCode record ++ ")";
    AbsenteeRecord.parentName record;
    AbsenteeRecord.parentPhone record;
    toLocaleDateString (JsDate.parse tz (AbsenteeRecord.date record)) ].

Definition csvLines (absentees : list AbsenteeRecord.t) : list string :=
  csvHeader :: map (fun record => join "," (csvFields record)) absentees.

Definition csvContent (absentees : list AbsenteeRecord.t) : string :=
  join newline (csvLines absentees).

End Platform.

(** Lines 184-199. *)
Definition groupStep (acc : JsObject.t (list AbsenteeRecord.t))
           (record : AbsenteeRecord.t)
  : result (JsObject.t (list AbsenteeRecord.t)) :=
  let key := AbsenteeRecord.fieldName record in
  match JsObject.own key acc with
  | Some _ => Ok (JsObject.update key (fun l => (l ++ [record])%list) acc)
  | None =>
      if JsObject.inherited key
      then Throw "TypeError: acc[key].push is not a function"
      else Ok (JsObject.define key [record] acc)
  end.

Fixpoint reduceGroups (acc : JsObject.t (list AbsenteeRecord.t))
         (l : list AbsenteeRecord.t)
  : result (JsObject.t (list AbsenteeRecord.t)) :=
  match l with
  | [] => Ok acc
  | record :: l' =>
      match groupStep acc record with
      | Ok acc' => reduceGroups acc' l'
      | Throw e => Throw e
      end
  end.

Definition getGroupedAbsentees (absentees : list AbsenteeRecord.t)
  : result (list Group.t) :=
  match reduceGroups [] absentees with
  | Ok grouped =>
      Ok (map (fun e => {| Group.fieldName := fst e;
                           Group.records := snd e;
                           Group.count := length (snd e) |})
              (JsObject.entries grouped))
  | Throw e => Throw e
  end.

End Reports.

(** ** [api_update/get_student_absentee_hours.php] *)

Module Php.

#[warnings="-register-all"]
Inductive json : Type :=
| JsonNull
| JsonNumber (n : Z)
| JsonString (s : string)
| JsonArray (items : list json)
| JsonObject (members : list (string * json)).

(** A column value of a fetched row: [NULL], an integer (the ids) or a
    string. *)
Inductive value : Type :=
| Null
| Int (n : Z)
| Str (s : string).

(** A fetched row ([PDO::FETCH_ASSOC]): column name to value. *)
Definition row : Type := list (string * value).

Definition encodeValue (v : value) : json :=
  match v with
  | Null => JsonNull
  | Int n => JsonNumber n
  | Str s => JsonString s
  end.

Definition encodeRow (r : row) : json :=
  JsonObject (map (fun kv => (fst kv, encodeValue (snd kv))) r).

(** What running the query against the database does: it yields the join
    rows, or a [PDOException] with a message is thrown. *)
Inductive database : Type :=
| QueryRows (rows : list row)
| QueryFails (message : string).

(** What the client can observe of a request, and the number of queries
    sent to the database while serving it. *)
Record world : Type := mkWorld
  { status : Z; output : list json; queries : nat }.

Inductive outcome (A : Type) : Type :=
| Done (a : A)
| Exited
| Raised (message : string).
Arguments Done {A} a.
Arguments Exited {A}.
Arguments Raised {A} message.

(** Script fragments: they may finish, end the request, or throw. *)
Definition script (A : Type) : Type := world -> outcome A * world.

Definition ret {A : Type} (a : A) : script A := fun w => (Done a, w).

Definition bind {A B : Type} (c : script A) (k : A -> script B) : script B :=
  fun w =>
    match c w with
    | (Done a, w') => k a w'
    | (Exited, w') => (Exited, w')
    | (Raised m, w') => (Raised m, w')
    end.

Notation "x <- c ;; k" := (bind c (fun x => k))
  (at level 61, c at next level, right associativity).
Notation "c ;; k" := (bind c (fun _ => k))
  (at level 61, right associativity).

Definition http_response_code (code : Z) : script unit :=
  fun w => (Done tt, {| status := code; output := output w;
                        queries := queries w |}).

Definition echo (j : json) : script unit :=
  fun w => (Done tt, {| status := status w;
                        output := (output w ++ [j])%list;
                        queries := queries w |}).

Definition exit {A : Type} : script A := fun w => (Exited, w).

Definition throw {A : Type} (message : string) : script A :=
  fun w => (Raised message, w).

Definition try_catch {A : Type} (body : script A)
           (handler : string -> script A) : script A :=
  fun w =>
    match body w with
    | (Raised m, w') => handler m w'
    | other => other
    end.

(** [$pdo->query($sql)] followed by [fetchAll]. *)
Definition pdo_query (db : database) : script (list row) :=
  fun w =>
    let w' := {| status := status w; output := output w;
                 queries := S (queries w) |} in
    match db with
    | QueryRows rows => (Done rows, w')
    | QueryFails message => (Raised message, w')
    end.

Definition json_encode (rows : list row) : json :=
  JsonArray (map encodeRow rows).

Definition errorBody (message : string) : json :=
  JsonObject [("error", JsonString message)].

Section Handler.

(** [sendResponse] is defined in [config.php], which is not among the
    sources: the handler is read with the helper as a parameter. *)
Variable sendResponse : json -> Z -> script unit.

Definition get_student_absentee_hours (method : string) (db : database)
  : script unit :=
  (if negb (method =? "GET")%string
   then sendResponse (errorBody "Method not allowed") 405
   else ret tt) ;;
  try_catch
    (absenteeData <- pdo_query db ;;
     echo (json_encode absenteeData))
    (fun e =>
       sendResponse
         (errorBody ("Failed to fetch student absentee hours: " ++ e)) 500).

(** A request starts with status 200 and nothing written. *)
Definition respond (method : string) (db : database) : world :=
  snd (get_student_absentee_hours method db
         {| status := 200; output := []; queries := 0 |}).

End Handler.

(** What the specification needs of the helper: it answers with the given
    status and the given JSON body, and the request ends there. *)
Definition answersAndEnds (sendResponse : json -> Z -> script unit) : Prop :=
  forall data code w,
    sendResponse data code w
    = (Exited, {| status := code; output := (output w ++ [data])%list;
                  queries := queries w |}).

(** Modelled from the spec: [sendResponse] of the missing [config.php], as
    section 6 needs it ("405 on wrong method, 500 with [{error: message}]
    on query failure"): status, JSON body, end of the request. *)
Definition sendResponseAndExit (data : json) (code : Z) : script unit :=
  http_response_code code ;; echo data ;; exit.

(** A helper that writes the same answer and returns to its caller. *)
Definition sendResponseAndReturn (data : json) (code : Z) : script unit :=
  http_response_code code ;; echo data.

(** The body carries the rows: one object per row in order, one member per
    column in order, each with the column's name and value. *)
Definition carriesValue (v : value) (j : json) : Prop :=
  match v, j with
  | Null, JsonNull => True
  | Int n, JsonNumber m => n = m
  | Str s, JsonString t => s = t
  | _, _ => False
  end.

Definition carriesRow (r : row) (j : json) : Prop :=
  exists members,
    j = JsonObject members
    /\ Forall2 (fun kv m => fst kv = fst m /\ carriesValue (snd kv) (snd m))
               r members.

Definition carriesRows (rows : list row) (j : json) : Prop :=
  exists items, j = JsonArray items /\ Forall2 carriesRow rows items.

(** The endpoint in the words of the specification. *)
Definition responseAsSpecified (method : string) (db : database) (w : world)
  : Prop :=
  if (method =? "GET")%string then
    match db with
    | QueryRows rows =>
        status w = 200
        /\ exists body, output w = [body] /\ carriesRows rows body
    | QueryFails message =>
        status w = 500
        /\ output w
           = [JsonObject
                [("error",
                  JsonString ("Failed to fetch student absentee hours: "
                              ++ message))]]
    end
  else
    status w = 405
    /\ output w = [JsonObject [("error", JsonString "Method not allowed")]].

End Php.

(** ** Time slots in the timetable format *)

Definition digit (n : nat) : ascii := ascii_of_nat (48 + n).

Definition two_digits (n : nat) : string :=
  String (digit (n / 10)) (String (digit (n mod 10)) "").

(** ["HH:MM"] *)
Definition hhmm (h m : nat) : string := two_digits h ++ ":" ++ two_digits m.

(** ["HH:MM - HH:MM"] *)
Definition timeSlotString (h1 m1 h2 m2 : nat) : string :=
  hhmm h1 m1 ++ " - " ++ hhmm h2 m2.

(** Elapsed hours from [h1:m1] to [h2:m2]. *)
Definition elapsedHours (h1 m1 h2 m2 : nat) : Q :=
  inject_Z (Z.of_nat (h2 * 60 + m2) - Z.of_nat (h1 * 60 + m1)) / inject_Z 60.

(** [lacks c s]: the character [c] does not occur in [s]. *)
Fixpoint lacks (c : ascii) (s : string) : bool :=
  match s with
  | EmptyString => true
  | String c' s' => negb (Ascii.eqb c c') && lacks c s'
  end.

(** ** The statements to be checked, in the words of the specification *)

(** The sum of a list of numbers as [reduce] takes it: from 0, adding the
    elements from left to right. *)
Definition sumLeftToRight (l : list jsnum) : jsnum :=
  fold_left JsNum.add l (of_Z 0).

(** The record is one of the student's: same id or same matricule. *)
Definition belongsTo (student : Student.t) (record : Absence.t) : Prop :=
  Absence.studentId record = JString (Student.id student)
  \/ Absence.matricule record = JString (Student.matricule student).

(** What an entry copies from its student. *)
Definition identityOfEntry (e : Hours.t) : list string :=
  [Hours.studentId e; Hours.studentName e; Hours.matricule e;
   Hours.field e; Hours.level e].

Definition identityOfStudent (s : Student.t) : list string :=
  [Student.id s; Student.name s; Student.matricule s;
   Student.field s; Student.level s].

(** The risk bands, lower bounds included. *)
Definition riskBands (h : jsnum) : Prop :=
  (riskLevel h = "Critical" <-> JsNum.ge h (of_Z 15))
  /\ (riskLevel h = "High" <-> JsNum.ge h (of_Z 10) /\ JsNum.lt h (of_Z 15))
  /\ (riskLevel h = "Medium" <-> JsNum.ge h (of_Z 5) /\ JsNum.lt h (of_Z 10))
  /\ (riskLevel h = "Low" <-> JsNum.lt h (of_Z 5)).

(** The rows and columns a reader of the exported text sees. *)
Definition csvRows (text : string) : list (list string) :=
  map (split ",") (split Reports.newline text).

Definition csvColumns : list string :=
  ["Student Name"; "Matricule"; "Field"; "Level"; "Course";
   "Parent Name"; "Parent Phone"; "Date"].

(** The eight columns of a record's row, in the order of the
    specification: student name, matricule, field, level, course, parent
    name, parent phone, date. *)
Definition columnsInOrder (tz : Z) (toLocaleDateString : JsDate.t -> string)
           (record : AbsenteeRecord.t) : list string :=
  [ AbsenteeRecord.studentName record;
    AbsenteeRecord.matricule record;
    AbsenteeRecord.fieldName record;
    AbsenteeRecord.level record;
    AbsenteeRecord.courseTitle record ++ " ("
      ++ AbsenteeRecord.courseCode record ++ ")";
    AbsenteeRecord.parentName record;
    AbsenteeRecord.parentPhone record;
    toLocaleDateString (JsDate.parse tz (AbsenteeRecord.date record)) ].

(** One header row and one row per record. *)
Definition rowCountAsSpecified (tz : Z)
           (toLocaleDateString : JsDate.t -> string)
           (absentees : list AbsenteeRecord.t) : Prop :=
  length (csvRows (Reports.csvContent tz toLocaleDateString absentees))
  = S (length absentees).

(** Every row has its columns in the fixed order. *)
Definition columnsAsSpecified (tz : Z)
           (toLocaleDateString : JsDate.t -> string)
           (absentees : list AbsenteeRecord.t) : Prop :=
  nth_error (csvRows (Reports.csvContent tz toLocaleDateString absentees)) 0
  = Some csvColumns
  /\ forall i record,
       nth_error absentees i = Some record ->
       nth_error (csvRows (Reports.csvContent tz toLocaleDateString absentees))
                 (S i)
       = Some (columnsInOrder tz toLocaleDateString record).

Definition csvAsSpecified (tz : Z) (toLocaleDateString : JsDate.t -> string)
           (absentees : list AbsenteeRecord.t) : Prop :=
  rowCountAsSpecified tz toLocaleDateString absentees
  /\ columnsAsSpecified tz toLocaleDateString absentees.

Definition carriageReturn : ascii := ascii_of_nat 13.

Definition doubleQuote : ascii := ascii_of_nat 34.

(** A field that cannot end or merge a row: it has no line break (line
    feed or carriage return) and no double quote. *)
Definition keepsRow (f : string) : bool :=
  lacks (ascii_of_nat 10) f && lacks carriageReturn f && lacks doubleQuote f.

(** First and last millisecond of day number [day] in the zone at offset
    [zone] from UTC. *)
Definition startOfDay (zone day : Z) : Z := day * JsDate.msPerDay - zone.

Definition endOfDay (zone day : Z) : Z :=
  day * JsDate.msPerDay + (JsDate.msPerDay - 1) - zone.

Definition withinDays (zone dayFrom dayTo t : Z) : Prop :=
  startOfDay zone dayFrom <= t <= endOfDay zone dayTo.

(** Grouping by field as a partition of the list. *)
Definition recordsOfField (name : string) (l : list AbsenteeRecord.t)
  : list AbsenteeRecord.t :=
  filter (fun r => (AbsenteeRecord.fieldName r =? name)%string) l.

Definition partitionsByField (absentees : list AbsenteeRecord.t)
           (groups : list Group.t) : Prop :=
  NoDup (map Group.fieldName groups)
  /\ (forall r, In r absentees ->
                In (AbsenteeRecord.fieldName r) (map Group.fieldName groups))
  /\ Forall (fun g =>
               Group.records g = recordsOfField (Group.fieldName g) absentees
               /\ Group.records g <> []
               /\ Group.count g = length (Group.records g)) groups
  /\ list_sum (map Group.count groups) = length absentees.

(** The table built by the reduction after the records [done]: one entry
    per field met, holding the records of that field in their order. *)
Definition groupsOf (done : list AbsenteeRecord.t)
           (acc : JsObject.t (list AbsenteeRecord.t)) : Prop :=
  NoDup (map fst acc)
  /\ Forall (fun e => snd e = recordsOfField (fst e) done /\ snd e <> []) acc
  /\ (forall r, In r done -> In (AbsenteeRecord.fieldName r) (map fst acc))
  /\ list_sum (map (fun e => length (snd e)) acc) = length done.

(** ** Sample data *)

Module Sample.

Definition student : Student.t :=
  {| Student.id := "17"; Student.name := "Ngo Bella";
     Student.matricule := "FE21A001";
     Student.field := "Computer Science"; Student.level := "Level 200" |}.

Definition otherStudent : Student.t :=
  {| Student.id := "18"; Student.name := "Tabi Paul";
     Student.matricule := "FE21A002";
     Student.field := "Data Science"; Student.level := "Level 200" |}.

Definition absence (timeSlot : jsval) : Absence.t :=
  {| Absence.studentId := JString "17"; Absence.matricule := JString "FE21A001";
     Absence.date := JString "2024-03-10 08:00:00";
     Absence.courseTitle := JString "Algorithms";
     Absence.courseCode := JString "CS201";
     Absence.timeSlot := timeSlot |}.

Definition record (fieldName courseTitle date : string) : AbsenteeRecord.t :=
  {| AbsenteeRecord.studentName := "Ngo Bella";
     AbsenteeRecord.matricule := "FE21A001";
     AbsenteeRecord.fieldName := fieldName;
     AbsenteeRecord.level := "Level 200";
     AbsenteeRecord.courseTitle := courseTitle;
     AbsenteeRecord.courseCode := "CS201";
     AbsenteeRecord.parentName := "Mme Bella";
     AbsenteeRecord.parentPhone := "677000000";
     AbsenteeRecord.date := date |}.

Definition filters (dateFrom dateTo : string) : FilterState.t :=
  {| FilterState.dateFrom := dateFrom; FilterState.dateTo := dateTo;
     FilterState.fieldName := ""; FilterState.level := "";
     FilterState.reportType := "daily" |}.

(** A fixed rendering of dates, standing for one locale. *)
Definition localeDate (d : JsDate.t) : string :=
  match d with
  | Some _ => "10/03/2024"
  | None => "Invalid Date"
  end.

Definition cachedHours : list Hours.t :=
  [ {| Hours.studentId := "17"; Hours.studentName := "Ngo Bella";
       Hours.matricule := "FE21A001"; Hours.field := "Computer Science";
       Hours.level := "Level 200"; Hours.totalAbsentHours := of_Z 4;
       Hours.absentSessions := [] |} ].

Definition initialState : State :=
  {| absenteeHours := []; loading := true; error := None;
     selectedField := "" |}.

(** Five hours behind UTC. *)
Definition utcMinus5 : Z := - (5 * 3600000).

(** One hour ahead of UTC. *)
Definition utcPlus1 : Z := 3600000.

End Sample.

(** ** The remaining logic of the two components *)

(** [[...new Set(values)]]: the distinct values, in order of first
    occurrence. *)
Definition setAdd (s : list string) (x : string) : list string :=
  if existsb (String.eqb x) s then s else (s ++ [x])%list.

Definition distinct (values : list string) : list string :=
  fold_left setAdd values [].

Definition getUniqueFields (st : State) : list string :=
  distinct (map Hours.field (absenteeHours st)).

Definition getHighRiskStudents (st : State) : list Hours.t :=
  filter (fun data => geb (Hours.totalAbsentHours data) (of_Z 10))
         (absenteeHours st).

(** The field selector: [setSelectedField(e.target.value)]. *)
Definition setSelectedField (value : string) (st : State) : State :=
  {| absenteeHours := absenteeHours st; loading := loading st;
     error := error st; selectedField := value |}.

(** The "Recent Absences" cell of a row: the first two sessions, the
    number of further ones when there are more than two, and the "Perfect
    attendance!" note. *)
Record RecentAbsences : Type := mkRecent
  { shown : list Session.t; more : option nat; perfectAttendance : bool }.

Definition recentAbsences (data : Hours.t) : RecentAbsences :=
  let sessions := Hours.absentSessions data in
  {| shown := firstn 2 sessions;
     more := if (2 <? length sessions)%nat
             then Some (length sessions - 2)%nat else None;
     perfectAttendance := (length sessions =? 0)%nat |}.

Module Summary.

(** The tiles "Fields Affected", "Courses Affected", "Parents to Contact". *)
Definition fieldsAffected (absentees : list AbsenteeRecord.t) : nat :=
  length (distinct (map AbsenteeRecord.fieldName absentees)).

Definition coursesAffected (absentees : list AbsenteeRecord.t) : nat :=
  length (distinct (map AbsenteeRecord.courseTitle absentees)).

Definition parentsToContact (absentees : list AbsenteeRecord.t) : nat :=
  length (distinct (map AbsenteeRecord.parentPhone absentees)).

End Summary.

(** [encodeURIComponent] on the UTF-8 bytes of a string: letters, digits
    and [- _ . ! ~ * ' ( )] are kept, every other byte becomes [%XX].  (A
    lone surrogate, on which the function throws, has no UTF-8 form.) *)
Module Uri.

Definition unreserved (c : ascii) : bool :=
  let n := nat_of_ascii c in
  ((65 <=? n) && (n <=? 90) || (97 <=? n) && (n <=? 122)
   || (48 <=? n) && (n <=? 57)
   || existsb (Ascii.eqb c) (list_ascii_of_string "-_.!~*'()"))%nat.

Definition hexDigit (n : nat) : ascii :=
  if (n <? 10)%nat then ascii_of_nat (48 + n) else ascii_of_nat (55 + n).

Definition escape (c : ascii) : string :=
  if unreserved c then String c ""
  else String "%" (String (hexDigit (nat_of_ascii c / 16))
                     (String (hexDigit (nat_of_ascii c mod 16)) "")).

Fixpoint encodeURIComponent (s : string) : string :=
  match s with
  | EmptyString => ""
  | String c s' => escape c ++ encodeURIComponent s'
  end.

End Uri.

(** Lines 122-131 of the report page: the addresses the two contact
    buttons navigate to. *)
Definition callHref (phoneNumber : string) : string := "tel:" ++ phoneNumber.

Definition smsBody (studentName : string) : string :=
  Uri.encodeURIComponent
    ("Hello, this is regarding " ++ studentName
     ++ "'s attendance. Please contact the school for more information.").

Definition smsHref (phoneNumber studentName : string) : string :=
  "sms:" ++ phoneNumber ++ "?body=" ++ smsBody studentName.

(** A record passes every filter that is set. *)
Definition passes (tz : Z) (filters : FilterState.t)
           (record : AbsenteeRecord.t) : bool :=
  ((FilterState.fieldName filters =? "")%string
   || (AbsenteeRecord.fieldName record =? FilterState.fieldName filters)%string)
  && ((FilterState.level filters =? "")%string
      || (AbsenteeRecord.level record =? FilterState.level filters)%string)
  && Reports.inDateRange tz filters record.

(** [a] is [NaN] or a number not below [n]. *)
Definition nanOrAtLeast (n : Z) (a : jsnum) : Prop :=
  match a with
  | Num q => (inject_Z n <= q)%Q
  | NaN => True
  end.

(** * Properties *)

(** ** Splitting and joining *)

Section SplitJoin.

Variable c0 : ascii.
Variable sep' : string.
Let sep : string := String c0 sep'.

Lemma append_assoc (a b c : string) : ((a ++ b) ++ c = a ++ (b ++ c))%string.
Proof. induction a as [|x a IH]; simpl; [reflexivity | now rewrite IH]. Qed.

Lemma append_empty_r (a : string) : (a ++ "" = a)%string.
Proof. induction a as [|x a IH]; simpl; [reflexivity | now rewrite IH]. Qed.

Lemma prefix_append (a b : string) : prefix a (a ++ b) = true.
Proof.
  induction a as [|x a IH]; simpl; [now destruct b |].
  destruct (ascii_dec x x); [exact IH | congruence].
Qed.

Lemma prefix_first_differs (c : ascii) (s : string) :
  Ascii.eqb c0 c = false -> prefix sep (String c s) = false.
Proof.
  intros H. unfold sep. simpl.
  destruct (ascii_dec c0 c) as [e|_]; [|reflexivity].
  subst. now rewrite Ascii.eqb_refl in H.
Qed.

Lemma split_go_lacks (a : string) :
  lacks c0 a = true ->
  forall cur rest,
    split_go sep 0 cur (a ++ rest) = split_go sep 0 (cur ++ a) rest.
Proof.
  induction a as [|c a IH]; intros Ha cur rest.
  - now rewrite append_empty_r.
  - simpl in Ha. apply andb_true_iff in Ha as [Hc Ha].
    apply negb_true_iff in Hc.
    change (String c a ++ rest)%string with (String c (a ++ rest)).
    cbn [split_go]. rewrite (prefix_first_differs c (a ++ rest) Hc).
    rewrite (IH Ha). now rewrite append_assoc.
Qed.

Lemma split_go_skip (x : string) :
  forall cur rest,
    split_go sep (String.length x) cur (x ++ rest) = split_go sep 0 cur rest.
Proof.
  induction x as [|c x IH]; intros cur rest; simpl.
  - destruct rest; reflexivity.
  - apply IH.
Qed.

Lemma split_go_separator (cur rest : string) :
  split_go sep 0 cur (sep ++ rest) = cur :: split_go sep 0 "" rest.
Proof.
  change (sep ++ rest)%string with (String c0 (sep' ++ rest)).
  cbn [split_go].
  change (String c0 (sep' ++ rest)) with (sep ++ rest)%string.
  rewrite prefix_append. f_equal.
  replace (String.length sep - 1)%nat with (String.length sep')
    by (unfold sep; simpl; lia).
  apply split_go_skip.
Qed.

Lemma split_go_last (a cur : string) :
  lacks c0 a = true -> split_go sep 0 cur a = [(cur ++ a)%string].
Proof.
  intros Ha. rewrite <- (append_empty_r a) at 1.
  now rewrite (split_go_lacks a Ha).
Qed.

(** Splitting what [join] built gives the pieces back, as long as no piece
    contains the first character of the separator. *)
Lemma split_join (l : list string) :
  l <> [] ->
  Forall (fun a => lacks c0 a = true) l ->
  split sep (join sep l) = l.
Proof.
  intros Hne Hall. unfold split, sep. fold sep.
  induction l as [|a l IH]; [congruence |].
  inversion Hall as [|? ? Ha Hl]; subst.
  destruct l as [|b l].
  - simpl. now rewrite (split_go_last a "" Ha).
  - change (join sep (a :: b :: l)) with (a ++ sep ++ join sep (b :: l))%string.
    rewrite (split_go_lacks a Ha). rewrite split_go_separator. simpl.
    f_equal. apply IH; [congruence | assumption].
Qed.

End SplitJoin.

(** ** Parsing the two ends of a time slot *)

Lemma digit_val_digit (d : nat) :
  (d < 10)%nat -> digit_val (digit d) = Some (Z.of_nat d).
Proof.
  intros H. do 10 (destruct d as [|d]; [reflexivity |]). lia.
Qed.

Lemma digit_not_space (d : nat) :
  (d < 10)%nat -> Ascii.eqb " " (digit d) = false.
Proof.
  intros H. do 10 (destruct d as [|d]; [reflexivity |]). lia.
Qed.

Lemma digit_of_tens (n : nat) : (n < 100)%nat -> (n / 10 < 10)%nat.
Proof. intros H. apply Nat.Div0.div_lt_upper_bound. lia. Qed.

Lemma digit_of_units (n : nat) : (n mod 10 < 10)%nat.
Proof. apply Nat.mod_upper_bound. lia. Qed.

Lemma parse_num_two_digits (n : nat) :
  (n < 100)%nat -> parse_num 2 (two_digits n) = Some (Z.of_nat n).
Proof.
  intros H. unfold parse_num, two_digits. cbn [String.length Nat.eqb digits_val].
  rewrite (digit_val_digit _ (digit_of_tens n H)).
  rewrite (digit_val_digit _ (digit_of_units n)).
  f_equal. pose proof (Nat.div_mod_eq n 10). lia.
Qed.

Lemma lacks_space_hhmm (h m : nat) :
  (h < 100)%nat -> (m < 100)%nat -> lacks " " (hhmm h m) = true.
Proof.
  intros Hh Hm. unfold hhmm, two_digits. cbn [append lacks].
  rewrite !digit_not_space
    by (apply digit_of_tens || apply digit_of_units; assumption).
  reflexivity.
Qed.

Lemma parse_time_five (a b c d : ascii) :
  JsDate.parse_time (String a (String b (String ":" (String c (String d "")))))
  = match parse_num 2 (String a (String b "")),
          parse_num 2 (String c (String d "")) with
    | Some h, Some mi =>
        if (h <=? 23) && (mi <=? 59)
        then Some ((h * 60 + mi) * 60000, false) else None
    | _, _ => None
    end.
Proof. reflexivity. Qed.

Lemma parse_time_hhmm (h m : nat) :
  (h < 24)%nat -> (m < 60)%nat ->
  JsDate.parse_time (hhmm h m)
  = Some ((Z.of_nat h * 60 + Z.of_nat m) * 60000, false).
Proof.
  intros Hh Hm. unfold hhmm. unfold two_digits at 1.
  cbn [append]. unfold two_digits at 1. rewrite parse_time_five.
  fold (two_digits h). fold (two_digits m).
  rewrite !parse_num_two_digits by lia.
  replace (Z.of_nat h <=? 23) with true by (symmetry; apply Z.leb_le; lia).
  replace (Z.of_nat m <=? 59) with true by (symmetry; apply Z.leb_le; lia).
  reflexivity.
Qed.

Lemma parse_on_2000_01_01 (tz : Z) (a b c d : ascii) :
  let t := String a (String b (String ":" (String c (String d "")))) in
  JsDate.parse tz ("2000-01-01 " ++ t)
  = match JsDate.parse_time t with
    | Some (ms, utc) =>
        Some (10957 * JsDate.msPerDay + ms - (if utc then 0 else tz))
    | None => None
    end.
Proof. reflexivity. Qed.

Lemma parse_slot_end (tz : Z) (h m : nat) :
  (h < 24)%nat -> (m < 60)%nat ->
  JsDate.parse tz ("2000-01-01 " ++ hhmm h m)
  = Some (10957 * JsDate.msPerDay
          + (Z.of_nat h * 60 + Z.of_nat m) * 60000 - tz).
Proof.
  intros Hh Hm.
  pose proof (parse_on_2000_01_01 tz (digit (h / 10)) (digit (h mod 10))
                (digit (m / 10)) (digit (m mod 10))) as P.
  cbv zeta in P. change (JsDate.parse tz ("2000-01-01 " ++ hhmm h m)) with
    (JsDate.parse tz ("2000-01-01 " ++
       String (digit (h / 10)) (String (digit (h mod 10))
         (String ":" (String (digit (m / 10)) (String (digit (m mod 10)) "")))))).
  rewrite P.
  change (String (digit (h / 10)) (String (digit (h mod 10))
         (String ":" (String (digit (m / 10)) (String (digit (m mod 10)) "")))))
    with (hhmm h m).
  now rewrite parse_time_hhmm.
Qed.

Lemma split_time_slot (h1 m1 h2 m2 : nat) :
  (h1 < 24)%nat -> (m1 < 60)%nat -> (h2 < 24)%nat -> (m2 < 60)%nat ->
  split " - " (timeSlotString h1 m1 h2 m2) = [hhmm h1 m1; hhmm h2 m2].
Proof.
  intros. apply (split_join " " "- " [hhmm h1 m1; hhmm h2 m2]).
  - discriminate.
  - repeat constructor; apply lacks_space_hhmm; lia.
Qed.

(** ** Session durations *)

Lemma hours_of_ms (x y d : Z) :
  x - y = 60000 * d ->
  ((inject_Z x - inject_Z y) / inject_Z (1000 * 60 * 60)
   == inject_Z d / inject_Z 60)%Q.
Proof.
  intros H. unfold Qminus. rewrite <- inject_Z_opp, <- inject_Z_plus.
  replace (x + - y) with (60000 * d) by lia.
  change (1000 * 60 * 60) with 3600000.
  unfold Qeq, Qdiv, Qmult, inject_Z. cbn [Qnum Qden Qinv]. lia.
Qed.

Lemma max_with_one (x y : Q) :
  (x == y)%Q -> (JsNum.max (Num x) (of_Z 1) ≡ Num (Qmax y 1))%js.
Proof.
  intros H. unfold JsNum.max, of_Z.
  destruct (Qle_bool x (inject_Z 1)) eqn:E; simpl.
  - apply Qle_bool_iff in E.
    rewrite Q.max_r; [reflexivity | now rewrite <- H].
  - assert (~ (x <= 1)%Q) as N.
    { intros C. apply Qle_bool_iff in C. unfold inject_Z in E. congruence. }
    rewrite Q.max_l; [assumption |].
    rewrite <- H. apply Qlt_le_weak. now apply Qnot_le_lt.
Qed.

(** C1.  For a time slot ["HH:MM - HH:MM"] with both ends valid times of
    day, [calculateSessionDuration] returns the elapsed time from the start
    to the end in hours, or 1 when that is smaller: max(end - start, 1).
    The result does not depend on the time zone of the browser. *)
Theorem calculateSessionDuration_valid (tz : Z) (h1 m1 h2 m2 : nat) :
  (h1 < 24)%nat -> (m1 < 60)%nat -> (h2 < 24)%nat -> (m2 < 60)%nat ->
  (calculateSessionDuration tz (JString (timeSlotString h1 m1 h2 m2))
   ≡ Num (Qmax (elapsedHours h1 m1 h2 m2) 1))%js.
Proof.
  intros H1 M1 H2 M2.
  unfold calculateSessionDuration.
  replace (truthy (JString (timeSlotString h1 m1 h2 m2))) with true
    by reflexivity.
  cbn [negb]. unfold sessionDurationBody.
  rewrite split_time_slot by assumption.
  cbn [nth_error interpolate].
  rewrite !parse_slot_end by assumption.
  cbn [JsDate.getTime JsNum.sub of_Z JsNum.div].
  replace (Qeq_bool (inject_Z (1000 * 60 * 60)) 0) with false by reflexivity.
  apply max_with_one. unfold elapsedHours. apply hours_of_ms. lia.
Qed.

Lemma calculateSessionDuration_valid_witness :
  (calculateSessionDuration Sample.utcPlus1 (JString (timeSlotString 9 0 11 30))
   ≡ Num (Qmax (elapsedHours 9 0 11 30) 1))%js.
Proof. apply calculateSessionDuration_valid; lia. Defined.

Example duration_09_00_to_11_30 :
  calculateSessionDuration Sample.utcPlus1 (JString "09:00 - 11:30")
  = Num (9000000 # 3600000).
Proof. reflexivity. Qed.

Example duration_clamped :
  calculateSessionDuration 0 (JString "10:00 - 10:20") = Num (inject_Z 1).
Proof. reflexivity. Qed.

(** A missing slot (empty string, [null], [undefined]) gives the default
    of 2 hours. *)
Lemma calculateSessionDuration_missing (tz : Z) (timeSlot : jsval) :
  truthy timeSlot = false -> calculateSessionDuration tz timeSlot = of_Z 2.
Proof. intros H. unfold calculateSessionDuration. now rewrite H. Qed.

(** A value that is not a string has no [split]: the call throws and the
    [catch] block gives the default. *)
Lemma calculateSessionDuration_not_a_string (tz : Z) (timeSlot : jsval) :
  (forall s, timeSlot <> JString s) ->
  calculateSessionDuration tz timeSlot = of_Z 2.
Proof.
  intros H. unfold calculateSessionDuration.
  destruct timeSlot as [| |b|n|s]; try (destruct (negb _); reflexivity).
  now destruct (H s).
Qed.

Lemma parse_undefined (tz : Z) : JsDate.parse tz "2000-01-01 undefined" = None.
Proof. reflexivity. Qed.

(** X22.  A non-empty string without the separator [" - "] has no end
    time; the end date is invalid, nothing throws, and the result is
    [NaN]. *)
Lemma calculateSessionDuration_no_separator (tz : Z) (s : string) :
  s <> "" -> nth_error (split " - " s) 1 = None ->
  calculateSessionDuration tz (JString s) = NaN.
Proof.
  intros Hs He. unfold calculateSessionDuration.
  assert (truthy (JString s) = true) as ->.
  { simpl. destruct s; [congruence | reflexivity]. }
  cbn [negb sessionDurationBody]. rewrite He.
  cbn [interpolate]. rewrite parse_undefined. cbn [JsDate.getTime].
  destruct (JsDate.getTime _); reflexivity.
Qed.

(** C2.  A malformed slot (the separator written without its spaces) does
    not give the default of 2 hours: the function returns [NaN]. *)
Theorem calculateSessionDuration_malformed (tz : Z) :
  calculateSessionDuration tz (JString "09:00-11:00") = NaN
  /\ calculateSessionDuration tz (JString "TBA") = NaN.
Proof. repeat split; reflexivity. Qed.

(** ** Aggregation per student *)

(** The reduction over the sessions adds the durations in the order of the
    records; no law of the addition is used, so this holds of any addition,
    rounded or exact. *)
Lemma reduce_in_order {A B N : Type} (plus : N -> N -> N) (f : A -> B)
      (d : B -> N) (l : list A) (acc : N) :
  fold_left (fun sum x => plus sum (d x)) (map f l) acc
  = fold_left plus (map (fun a => d (f a)) l) acc.
Proof.
  revert acc. induction l as [|a l IH]; intros acc; simpl;
    [reflexivity | apply IH].
Qed.

Lemma strict_eq_string_spec (v : jsval) (s : string) :
  strict_eq_string v s = true <-> v = JString s.
Proof.
  destruct v; simpl; try (split; [discriminate | discriminate]).
  rewrite String.eqb_eq. split; [now intros -> | now intros [= ->]].
Qed.

Lemma matchesStudent_spec (student : Student.t) (record : Absence.t) :
  matchesStudent student record = true <-> belongsTo student record.
Proof.
  unfold matchesStudent, belongsTo.
  now rewrite orb_true_iff, !strict_eq_string_spec.
Qed.



Example total_of_sample :
  map Hours.totalAbsentHours
      (hoursData 0 [Sample.otherStudent; Sample.student]
         [Sample.absence (JString "08:00 - 10:00"); Sample.absence JNull])
  = [Num 0; Num (0 + (7200000 # 3600000) + 2)].
Proof. reflexivity. Qed.

Lemma filter_none {A : Type} (f : A -> bool) (l : list A) :
  (forall x, In x l -> f x = false) -> filter f l = [].
Proof.
  induction l as [|x l IH]; intros H; simpl; [reflexivity |].
  rewrite (H x (or_introl eq_refl)). apply IH. intros y Hy. apply H. now right.
Qed.

(** C8.  The aggregation has exactly one entry per input student, in the
    order of the input list (the entry at a position carries the id, name,
    matricule, field and level of the student at that position); a student
    with no matching absentee record still has an entry, with
    [totalAbsentHours] 0 and no absent session. *)
Theorem hoursData_one_entry_per_student (tz : Z) (students : list Student.t)
        (absenteeData : list Absence.t) :
  length (hoursData tz students absenteeData) = length students
  /\ map identityOfEntry (hoursData tz students absenteeData)
     = map identityOfStudent students
  /\ (forall i student,
         nth_error students i = Some student ->
         (forall r, In r absenteeData -> ~ belongsTo student r) ->
         exists entry,
           nth_error (hoursData tz students absenteeData) i = Some entry
           /\ Hours.studentId entry = Student.id student
           /\ Hours.totalAbsentHours entry = of_Z 0
           /\ Hours.absentSessions entry = []).
Proof.
  unfold hoursData. split; [apply length_map |]. split.
  - rewrite map_map. reflexivity.
  - intros i student Hi Hnone.
    exists (studentHours tz absenteeData student).
    split; [now rewrite nth_error_map, Hi |].
    assert (filter (matchesStudent student) absenteeData = []) as E.
    { apply filter_none. intros r Hr.
      destruct (matchesStudent student r) eqn:M; [|reflexivity].
      apply matchesStudent_spec in M. now destruct (Hnone r Hr). }
    unfold studentHours. rewrite E. repeat split.
Qed.

Lemma hoursData_one_entry_per_student_witness :
  exists entry,
    nth_error (hoursData 0 [Sample.otherStudent; Sample.student]
                 [Sample.absence JNull]) 0 = Some entry
    /\ Hours.studentId entry = Student.id Sample.otherStudent
    /\ Hours.totalAbsentHours entry = of_Z 0
    /\ Hours.absentSessions entry = [].
Proof.
  apply (proj2 (proj2 (hoursData_one_entry_per_student 0
                         [Sample.otherStudent; Sample.student]
                         [Sample.absence JNull])) 0%nat Sample.otherStudent).
  - reflexivity.
  - intros r [<- | []] [H | H]; discriminate H.
Defined.

(** ** Risk tiers *)

Lemma Qle_bool_false (x y : Q) : Qle_bool x y = false -> (y < x)%Q.
Proof.
  intros E. apply Qnot_le_lt. intros C. apply Qle_bool_iff in C. congruence.
Qed.

(** C4 (as amended).  For every aggregated absence-hours value that is a
    number, the displayed tier is Critical iff h >= 15, High iff
    10 <= h < 15, Medium iff 5 <= h < 10 and Low iff h < 5. *)
Theorem riskLevel_bands (q : Q) : riskBands (Num q).
Proof.
  unfold riskBands, riskLevel, geb, JsNum.ge, JsNum.lt, of_Z, inject_Z.
  destruct (Qle_bool (15 # 1) q) eqn:E15;
    [apply Qle_bool_iff in E15 | apply Qle_bool_false in E15];
    (destruct (Qle_bool (10 # 1) q) eqn:E10;
     [apply Qle_bool_iff in E10 | apply Qle_bool_false in E10]);
    (destruct (Qle_bool (5 # 1) q) eqn:E5;
     [apply Qle_bool_iff in E5 | apply Qle_bool_false in E5]);
    repeat split; intros; try discriminate; try reflexivity; try lra;
    repeat match goal with H : _ /\ _ |- _ => destruct H end; lra.
Qed.

Example riskLevel_at_boundaries :
  map riskLevel [of_Z 15; of_Z 10; of_Z 5; Num (49 # 10); of_Z 0]
  = ["Critical"; "High"; "Medium"; "Low"; "Low"].
Proof. reflexivity. Qed.

(** C4 as stated fails on a value the aggregation produces: one absence with
    a malformed time slot makes the student's total [NaN], which is shown
    as Low although it is not below 5. *)
Lemma riskLevel_bands_fail_on_NaN :
  Hours.totalAbsentHours
    (studentHours 0 [Sample.absence (JString "09:00-11:00")] Sample.student)
  = NaN
  /\ ~ riskBands
       (Hours.totalAbsentHours
          (studentHours 0 [Sample.absence (JString "09:00-11:00")]
             Sample.student)).
Proof.
  split; [reflexivity |].
  intros (_ & _ & _ & H). exact (proj1 H eq_refl).
Qed.

(** ** The HTTP handler *)

Lemma encodeRow_carries (r : Php.row) : Php.carriesRow r (Php.encodeRow r).
Proof.
  unfold Php.encodeRow. eexists. split; [reflexivity |].
  induction r as [|[k v] r IH]; simpl; constructor; [|exact IH].
  split; [reflexivity | now destruct v].
Qed.

Lemma json_encode_carries (rows : list Php.row) :
  Php.carriesRows rows (Php.json_encode rows).
Proof.
  unfold Php.json_encode. eexists. split; [reflexivity |].
  induction rows as [|r rows IH]; simpl; constructor;
    [apply encodeRow_carries | exact IH].
Qed.



Example endpoint_returns_rows :
  Php.output
    (Php.respond Php.sendResponseAndExit "GET"
       (Php.QueryRows [[("id", Php.Int 7); ("studentName", Php.Str "Ngo Bella");
                        ("timeSlot", Php.Null)]]))
  = [Php.JsonArray
       [Php.JsonObject [("id", Php.JsonNumber 7);
                        ("studentName", Php.JsonString "Ngo Bella");
                        ("timeSlot", Php.JsonNull)]]].
Proof. reflexivity. Qed.

(** The handler itself does not stop after the 405 call: with a helper that
    returns to its caller, a POST request is answered 405 and the script
    goes on to query the database and to write the rows after the error
    body. *)
Lemma endpoint_needs_the_helper_to_end (rows : list Php.row) :
  let w := Php.respond Php.sendResponseAndReturn "POST" (Php.QueryRows rows) in
  Php.status w = 405
  /\ Php.queries w = 1%nat
  /\ Php.output w
     = [Php.errorBody "Method not allowed"; Php.json_encode rows].
Proof. repeat split. Qed.

(** ** Failures while loading *)

(** C7.  When the request for absentee hours fails and a cache entry is
    present, the component stores the cached rows but what it returns is
    the error panel with its "Try Again" button, not the table: the cached
    data is not displayed. *)
Theorem cached_hours_hidden_by_error_panel (tz : Z)
        (students : list Student.t) (e : string)
        (cachedData : list Hours.t) (st : State) :
  let st' := fst (loadAbsenteeHours tz students (Throw e) (Some cachedData) st) in
  absenteeHours st' = cachedData
  /\ render st'
     = ErrorView "Failed to load absentee hours data. Please try again." true.
Proof. split; reflexivity. Qed.

Example cached_hours_not_shown :
  render (fst (loadAbsenteeHours 0 [Sample.student] (Throw "Network Error")
                 (Some Sample.cachedHours) Sample.initialState))
  = ErrorView "Failed to load absentee hours data. Please try again." true.
Proof. reflexivity. Qed.

(** When the request succeeds the table is shown and the rows are cached. *)
Lemma hours_shown_on_success (tz : Z) (students : list Student.t)
      (absenteeData : list Absence.t) (st : State) :
  selectedField st = "" ->
  let r := loadAbsenteeHours tz students (Ok absenteeData) None st in
  render (fst r)
  = TableView (map (fun data => (data, riskLevel (Hours.totalAbsentHours data)))
                   (hoursData tz students absenteeData))
  /\ snd r = Some (hoursData tz students absenteeData).
Proof.
  intros H. cbv zeta. unfold render, tableOf, getFilteredData. cbn.
  now rewrite H.
Qed.

(** Without a cache entry the same panel is shown. *)
Lemma error_panel_without_cache (tz : Z) (students : list Student.t)
      (e : string) (st : State) :
  render (fst (loadAbsenteeHours tz students (Throw e) None st))
  = ErrorView "Failed to load absentee hours data. Please try again." true.
Proof. reflexivity. Qed.

(** The report page never sets its error message when the API call fails:
    it filters the locally stored records, or nothing. *)
Lemma report_falls_back_silently (tz : Z) (filters : FilterState.t)
      (e : string) (localRecords : option (list AbsenteeRecord.t)) :
  let st := fst (Reports.loadAbsenteeReport tz filters (Throw e) localRecords) in
  Reports.error st = None
  /\ Reports.absentees st
     = Reports.applyFilters tz filters
         (match localRecords with Some l => l | None => [] end).
Proof. split; reflexivity. Qed.

(** ** The date filter of the report *)

Lemma geb_of_Z (a b : Z) : geb (of_Z a) (of_Z b) = (b <=? a).
Proof.
  unfold geb, of_Z, Qle_bool, inject_Z. cbn [Qnum Qden].
  now rewrite !Z.mul_1_r.
Qed.

(** What the filter computes, for a date-only [dateFrom] and [dateTo] (day
    numbers [dF] and [dT]) and a record whose date is the instant [t]: the
    lower bound is UTC midnight of [dateFrom]; the upper bound is the end of
    the local day in which UTC midnight of [dateTo] falls. *)
Lemma inDateRange_spec (tz : Z) (filters : FilterState.t)
      (record : AbsenteeRecord.t) (dF dT t : Z) :
  JsDate.parse tz (FilterState.dateFrom filters) = Some (dF * JsDate.msPerDay) ->
  JsDate.parse tz (FilterState.dateTo filters) = Some (dT * JsDate.msPerDay) ->
  JsDate.parse tz (AbsenteeRecord.date record) = Some t ->
  Reports.inDateRange tz filters record = true
  <-> startOfDay 0 dF <= t
      <= endOfDay tz ((dT * JsDate.msPerDay + tz) / JsDate.msPerDay).
Proof.
  intros HF HT HR.
  unfold Reports.inDateRange, Reports.fromDate, Reports.toDate, leb.
  rewrite HF, HT, HR. cbn [JsDate.setHours_23_59_59_999 JsDate.getTime].
  rewrite !geb_of_Z, andb_true_iff, !Z.leb_le.
  unfold startOfDay, endOfDay, JsDate.msPerDay. lia.
Qed.

(** In a browser on UTC the filter keeps exactly the records from the start
    of the [dateFrom] day to the end of the [dateTo] day. *)
Lemma inDateRange_on_utc (filters : FilterState.t)
      (record : AbsenteeRecord.t) (dF dT t : Z) :
  JsDate.parse 0 (FilterState.dateFrom filters) = Some (dF * JsDate.msPerDay) ->
  JsDate.parse 0 (FilterState.dateTo filters) = Some (dT * JsDate.msPerDay) ->
  JsDate.parse 0 (AbsenteeRecord.date record) = Some t ->
  Reports.inDateRange 0 filters record = true <-> withinDays 0 dF dT t.
Proof.
  intros HF HT HR. rewrite (inDateRange_spec 0 filters record dF dT t HF HT HR).
  rewrite Z.add_0_r, Z.div_mul by (unfold JsDate.msPerDay; lia).
  reflexivity.
Qed.

(** X20.  East of UTC (up to a day) the upper bound is the end of the local
    [dateTo] day, while the lower bound stays at UTC midnight, that is
    [tz] milliseconds after the start of the local [dateFrom] day. *)
Lemma inDateRange_east_of_utc (tz : Z) (filters : FilterState.t)
      (record : AbsenteeRecord.t) (dF dT t : Z) :
  0 <= tz < JsDate.msPerDay ->
  JsDate.parse tz (FilterState.dateFrom filters) = Some (dF * JsDate.msPerDay) ->
  JsDate.parse tz (FilterState.dateTo filters) = Some (dT * JsDate.msPerDay) ->
  JsDate.parse tz (AbsenteeRecord.date record) = Some t ->
  Reports.inDateRange tz filters record = true
  <-> startOfDay tz dF + tz <= t <= endOfDay tz dT.
Proof.
  intros Htz HF HT HR.
  rewrite (inDateRange_spec tz filters record dF dT t HF HT HR).
  replace ((dT * JsDate.msPerDay + tz) / JsDate.msPerDay) with dT.
  - unfold startOfDay. lia.
  - unfold JsDate.msPerDay in *.
    apply (Z.div_unique _ _ _ tz); lia.
Qed.

(** X21.  West of UTC (up to a day) the upper bound is the end of the local day
    before [dateTo]: no record of the local [dateTo] day is kept. *)
Lemma inDateRange_west_of_utc (tz : Z) (filters : FilterState.t)
      (record : AbsenteeRecord.t) (dF dT t : Z) :
  - JsDate.msPerDay <= tz < 0 ->
  JsDate.parse tz (FilterState.dateFrom filters) = Some (dF * JsDate.msPerDay) ->
  JsDate.parse tz (FilterState.dateTo filters) = Some (dT * JsDate.msPerDay) ->
  JsDate.parse tz (AbsenteeRecord.date record) = Some t ->
  Reports.inDateRange tz filters record = true
  <-> startOfDay 0 dF <= t <= endOfDay tz (dT - 1).
Proof.
  intros Htz HF HT HR.
  rewrite (inDateRange_spec tz filters record dF dT t HF HT HR).
  replace ((dT * JsDate.msPerDay + tz) / JsDate.msPerDay) with (dT - 1);
    [reflexivity |].
  unfold JsDate.msPerDay in *.
  apply (Z.div_unique _ _ _ (tz + 86400000)); lia.
Qed.

(** C9.  Five hours behind UTC, with [dateFrom = dateTo = 2024-03-10] (day
    19792), a record dated 17:00 UTC, noon local time, on that very day is
    dropped by the filter, although it lies within the day both in UTC and
    in local time: the end bound is the end of the previous local day. *)
Theorem date_filter_drops_record_of_end_day :
  let filters := Sample.filters "2024-03-10" "2024-03-10" in
  let record :=
    Sample.record "Computer Science" "Algorithms" "2024-03-10T17:00:00.000Z" in
  JsDate.parse Sample.utcMinus5 (FilterState.dateTo filters)
    = Some (19792 * JsDate.msPerDay)
  /\ JsDate.parse Sample.utcMinus5 (AbsenteeRecord.date record)
     = Some 1710090000000
  /\ withinDays 0 19792 19792 1710090000000
  /\ withinDays Sample.utcMinus5 19792 19792 1710090000000
  /\ Reports.toDate Sample.utcMinus5 filters
     = Some (endOfDay Sample.utcMinus5 19791)
  /\ Reports.inDateRange Sample.utcMinus5 filters record = false.
Proof.
  cbv zeta. repeat split; try reflexivity; vm_compute; discriminate.
Qed.

(** The same record given in the local format of the database. *)
Example date_filter_drops_local_noon :
  Reports.inDateRange Sample.utcMinus5
    (Sample.filters "2024-03-10" "2024-03-10")
    (Sample.record "Computer Science" "Algorithms" "2024-03-10 12:00:00")
  = false.
Proof. reflexivity. Qed.

(** One hour ahead of UTC the first hour of the [dateFrom] day is lost. *)
Example date_filter_drops_first_hour :
  Reports.inDateRange Sample.utcPlus1
    (Sample.filters "2024-03-10" "2024-03-10")
    (Sample.record "Computer Science" "Algorithms" "2024-03-10 00:30:00")
  = false
  /\ JsDate.parse Sample.utcPlus1 "2024-03-10 00:30:00"
     = Some (startOfDay Sample.utcPlus1 19792 + 30 * 60000).
Proof. split; reflexivity. Qed.

(** ** The exported CSV *)

Lemma lacks_append (c : ascii) (a b : string) :
  lacks c (a ++ b) = lacks c a && lacks c b.
Proof.
  induction a as [|x a IH]; simpl; [reflexivity |].
  now rewrite IH, andb_assoc.
Qed.

Lemma lacks_join (c : ascii) (sep : string) (l : list string) :
  lacks c sep = true ->
  Forall (fun a => lacks c a = true) l ->
  lacks c (join sep l) = true.
Proof.
  intros Hsep Hall. induction Hall as [|a l Ha Hl IH]; [reflexivity |].
  destruct l as [|b l]; [exact Ha |].
  change (join sep (a :: b :: l)) with (a ++ sep ++ join sep (b :: l))%string.
  now rewrite !lacks_append, Ha, Hsep, IH.
Qed.

Lemma csvLines_length (tz : Z) (toLocaleDateString : JsDate.t -> string)
      (absentees : list AbsenteeRecord.t) :
  length (Reports.csvLines tz toLocaleDateString absentees)
  = S (length absentees).
Proof. unfold Reports.csvLines. simpl. now rewrite length_map. Qed.

Lemma csvFields_in_order (tz : Z) (toLocaleDateString : JsDate.t -> string)
      (record : AbsenteeRecord.t) :
  Reports.csvFields tz toLocaleDateString record
  = columnsInOrder tz toLocaleDateString record.
Proof. reflexivity. Qed.

Lemma keepsRow_lacks (c : ascii) (l : list string) :
  c = ascii_of_nat 10 \/ c = carriageReturn \/ c = doubleQuote ->
  forallb keepsRow l = true ->
  Forall (fun f => lacks c f = true) l.
Proof.
  intros Hc Hl. rewrite forallb_forall in Hl. apply Forall_forall.
  intros f Hf. specialize (Hl f Hf). unfold keepsRow in Hl.
  apply andb_true_iff in Hl as [Hl Hq]. apply andb_true_iff in Hl as [Hn Hr].
  now destruct Hc as [-> | [-> | ->]].
Qed.

Lemma csvContent_lacks (tz : Z) (toLocaleDateString : JsDate.t -> string)
      (absentees : list AbsenteeRecord.t) (c : ascii) :
  c = carriageReturn \/ c = doubleQuote ->
  Forall (fun record =>
            forallb keepsRow (columnsInOrder tz toLocaleDateString record)
            = true) absentees ->
  lacks c (Reports.csvContent tz toLocaleDateString absentees) = true.
Proof.
  intros Hc Hall. unfold Reports.csvContent, Reports.csvLines.
  apply lacks_join; [now destruct Hc as [-> | ->] |].
  constructor; [now destruct Hc as [-> | ->] |].
  apply Forall_forall. intros line Hline.
  apply in_map_iff in Hline as (record & <- & Hin).
  rewrite Forall_forall in Hall. specialize (Hall record Hin).
  apply lacks_join; [now destruct Hc as [-> | ->] |].
  rewrite csvFields_in_order. apply keepsRow_lacks; [tauto | exact Hall].
Qed.

(** C6 (as amended).  For every list of filtered records none of whose
    exported fields contains a line break or a double quote, the exported
    text has no double quote and no carriage return (so it is read line by
    line, field by field) and has one header row followed by exactly one
    row per record; the header has the eight column names, and every row
    none of whose fields contains a comma has its eight columns in the
    fixed order: student name, matricule, field, level, course, parent
    name, parent phone, date. *)
Theorem csv_rows_and_columns (tz : Z) (toLocaleDateString : JsDate.t -> string)
        (absentees : list AbsenteeRecord.t) :
  Forall (fun record =>
            forallb keepsRow (columnsInOrder tz toLocaleDateString record)
            = true) absentees ->
  lacks doubleQuote (Reports.csvContent tz toLocaleDateString absentees) = true
  /\ lacks carriageReturn
           (Reports.csvContent tz toLocaleDateString absentees) = true
  /\ rowCountAsSpecified tz toLocaleDateString absentees
  /\ nth_error (csvRows (Reports.csvContent tz toLocaleDateString absentees)) 0
     = Some csvColumns
  /\ forall i record,
       nth_error absentees i = Some record ->
       forallb (lacks ",") (columnsInOrder tz toLocaleDateString record)
       = true ->
       nth_error (csvRows (Reports.csvContent tz toLocaleDateString absentees))
                 (S i)
       = Some (columnsInOrder tz toLocaleDateString record).
Proof.
  intros Hall.
  assert (split Reports.newline
            (Reports.csvContent tz toLocaleDateString absentees)
          = Reports.csvLines tz toLocaleDateString absentees) as E.
  { unfold Reports.csvContent, Reports.newline.
    apply (split_join (ascii_of_nat 10) "").
    - discriminate.
    - unfold Reports.csvLines. constructor; [reflexivity |].
      apply Forall_forall. intros line Hline.
      apply in_map_iff in Hline as (record & <- & Hin).
      apply lacks_join; [reflexivity |].
      rewrite Forall_forall in Hall. specialize (Hall record Hin).
      rewrite csvFields_in_order. apply keepsRow_lacks; [tauto | exact Hall]. }
  split; [apply csvContent_lacks; [tauto | exact Hall] |].
  split; [apply csvContent_lacks; [tauto | exact Hall] |].
  unfold rowCountAsSpecified, csvRows. rewrite E.
  split; [rewrite length_map; apply csvLines_length |].
  unfold Reports.csvLines. cbn [map nth_error].
  split; [reflexivity |].
  intros i record Hi Hcomma.
  rewrite map_map, nth_error_map, Hi. cbn [option_map]. f_equal.
  rewrite csvFields_in_order.
  apply (split_join "," "").
  - discriminate.
  - rewrite forallb_forall in Hcomma. now apply Forall_forall.
Qed.

Lemma csv_rows_and_columns_witness :
  lacks doubleQuote
    (Reports.csvContent 0 Sample.localeDate
       [Sample.record "Computer Science" "Algorithms" "2024-03-10 08:00:00";
        Sample.record "Data Science" "Statistics, Part I"
          "2024-03-11 10:00:00"]) = true
  /\ lacks carriageReturn
       (Reports.csvContent 0 Sample.localeDate
          [Sample.record "Computer Science" "Algorithms" "2024-03-10 08:00:00";
           Sample.record "Data Science" "Statistics, Part I"
             "2024-03-11 10:00:00"]) = true
  /\ rowCountAsSpecified 0 Sample.localeDate
       [Sample.record "Computer Science" "Algorithms" "2024-03-10 08:00:00";
        Sample.record "Data Science" "Statistics, Part I"
          "2024-03-11 10:00:00"]
  /\ nth_error
       (csvRows
          (Reports.csvContent 0 Sample.localeDate
             [Sample.record "Computer Science" "Algorithms"
                "2024-03-10 08:00:00";
              Sample.record "Data Science" "Statistics, Part I"
                "2024-03-11 10:00:00"])) 0
     = Some csvColumns
  /\ forall i record,
       nth_error
         [Sample.record "Computer Science" "Algorithms" "2024-03-10 08:00:00";
          Sample.record "Data Science" "Statistics, Part I"
            "2024-03-11 10:00:00"] i = Some record ->
       forallb (lacks ",") (columnsInOrder 0 Sample.localeDate record) = true ->
       nth_error
         (csvRows
            (Reports.csvContent 0 Sample.localeDate
               [Sample.record "Computer Science" "Algorithms"
                  "2024-03-10 08:00:00";
                Sample.record "Data Science" "Statistics, Part I"
                  "2024-03-11 10:00:00"])) (S i)
       = Some (columnsInOrder 0 Sample.localeDate record).
Proof.
  apply (csv_rows_and_columns 0 Sample.localeDate
    [Sample.record "Computer Science" "Algorithms" "2024-03-10 08:00:00";
     Sample.record "Data Science" "Statistics, Part I" "2024-03-11 10:00:00"]).
  repeat constructor.
Defined.

(** C6 as stated fails twice.  A course title with a comma gives its row
    nine columns, the sixth of which is not the parent name (the number of
    rows is not affected); a course title with a line break gives three
    rows for one record. *)
Lemma csv_not_as_specified :
  ~ csvAsSpecified 0 Sample.localeDate
      [Sample.record "Computer Science" "Algorithms, Part I"
         "2024-03-10 08:00:00"]
  /\ ~ csvAsSpecified 0 Sample.localeDate
        [Sample.record "Computer Science"
           ("Algorithms" ++ Reports.newline ++ "Part I")
           "2024-03-10 08:00:00"].
Proof.
  split.
  - intros [_ [_ H]]. specialize (H 0%nat _ eq_refl). vm_compute in H.
    discriminate H.
  - intros [H _]. unfold rowCountAsSpecified in H. vm_compute in H.
    discriminate H.
Qed.

Example csv_comma_keeps_row_count :
  rowCountAsSpecified 0 Sample.localeDate
    [Sample.record "Computer Science" "Algorithms, Part I"
       "2024-03-10 08:00:00"].
Proof. reflexivity. Qed.

Example csv_rows_with_line_break :
  csvRows (Reports.csvContent 0 Sample.localeDate
             [Sample.record "Computer Science"
                ("Algorithms" ++ Reports.newline ++ "Part I")
                "2024-03-10 08:00:00"])
  = [csvColumns;
     ["Ngo Bella"; "FE21A001"; "Computer Science"; "Level 200"; "Algorithms"];
     ["Part I (CS201)"; "Mme Bella"; "677000000"; "10/03/2024"]].
Proof. reflexivity. Qed.

Example csv_row_with_comma :
  nth_error
    (csvRows (Reports.csvContent 0 Sample.localeDate
       [Sample.record "Computer Science" "Algorithms, Part I"
          "2024-03-10 08:00:00"])) 1
  = Some ["Ngo Bella"; "FE21A001"; "Computer Science"; "Level 200";
          "Algorithms"; " Part I (CS201)"; "Mme Bella"; "677000000";
          "10/03/2024"].
Proof. reflexivity. Qed.

(** ** Grouping by field *)

Section Tables.

Context {V : Type}.

Lemma own_None (key : string) (o : JsObject.t V) :
  JsObject.own key o = None -> ~ In key (map fst o).
Proof.
  induction o as [|[k v] o IH]; simpl; [tauto |].
  destruct (String.eqb_spec k key); [discriminate |].
  intros H [E | I]; [congruence | now apply IH].
Qed.

Lemma own_Some (key : string) (f : V -> V) (o : JsObject.t V) (v : V) :
  JsObject.own key o = Some v ->
  exists a b, o = (a ++ (key, v) :: b)%list
              /\ JsObject.update key f o = (a ++ (key, f v) :: b)%list.
Proof.
  induction o as [|[k w] o IH]; simpl; [discriminate |].
  destruct (String.eqb_spec k key) as [-> | N].
  - intros [= ->]. now exists [], o.
  - intros H. destruct (IH H) as (a & b & -> & E).
    exists ((k, w) :: a), b. simpl. now rewrite E.
Qed.

Lemma insertByIndex_permutation (n : Z) (e : string * V)
      (l : list (Z * (string * V))) :
  Permutation (map snd (JsObject.insertByIndex n e l)) (e :: map snd l).
Proof.
  induction l as [|[m e'] l IH]; simpl; [reflexivity |].
  destruct (n <=? m); simpl; [reflexivity |].
  rewrite IH. apply perm_swap.
Qed.

(** [Object.entries] lists every own property once. *)
Lemma entries_permutation (o : JsObject.t V) :
  Permutation (JsObject.entries o) o.
Proof.
  unfold JsObject.entries.
  induction o as [|[k v] o IH]; simpl; [reflexivity |].
  destruct (JsObject.arrayIndex k); simpl.
  - rewrite insertByIndex_permutation. simpl. now constructor.
  - rewrite <- Permutation_middle. now constructor.
Qed.

End Tables.

Lemma recordsOfField_snoc (name : string) (done : list AbsenteeRecord.t)
      (r : AbsenteeRecord.t) :
  recordsOfField name (done ++ [r])
  = (recordsOfField name done
     ++ (if (AbsenteeRecord.fieldName r =? name)%string then [r] else []))%list.
Proof. unfold recordsOfField. now rewrite filter_app. Qed.

Lemma recordsOfField_other (name : string) (done : list AbsenteeRecord.t)
      (r : AbsenteeRecord.t) :
  AbsenteeRecord.fieldName r <> name ->
  recordsOfField name (done ++ [r]) = recordsOfField name done.
Proof.
  intros N. rewrite recordsOfField_snoc.
  destruct (String.eqb_spec (AbsenteeRecord.fieldName r) name); [easy |].
  apply app_nil_r.
Qed.

Lemma recordsOfField_same (done : list AbsenteeRecord.t)
      (r : AbsenteeRecord.t) :
  recordsOfField (AbsenteeRecord.fieldName r) (done ++ [r])
  = (recordsOfField (AbsenteeRecord.fieldName r) done ++ [r])%list.
Proof. rewrite recordsOfField_snoc. now rewrite String.eqb_refl. Qed.

Lemma groups_keep_other_fields (done : list AbsenteeRecord.t)
      (r : AbsenteeRecord.t) (l : JsObject.t (list AbsenteeRecord.t)) :
  ~ In (AbsenteeRecord.fieldName r) (map fst l) ->
  Forall (fun e => snd e = recordsOfField (fst e) done /\ snd e <> []) l ->
  Forall (fun e => snd e = recordsOfField (fst e) (done ++ [r])
                   /\ snd e <> []) l.
Proof.
  intros Hk Hall. rewrite Forall_forall in *. intros e He.
  destruct (Hall e He) as [E N]. split; [|exact N].
  rewrite recordsOfField_other; [exact E |].
  intros C. apply Hk. rewrite C. now apply in_map.
Qed.

(** One step of the reduction, for a field name that is not a property
    inherited from [Object.prototype]. *)
Lemma groupStep_ok (done : list AbsenteeRecord.t)
      (acc : JsObject.t (list AbsenteeRecord.t)) (r : AbsenteeRecord.t) :
  groupsOf done acc ->
  JsObject.inherited (AbsenteeRecord.fieldName r) = false ->
  exists acc', Reports.groupStep acc r = Ok acc'
               /\ groupsOf (done ++ [r]) acc'.
Proof.
  intros (Hnd & Hall & Hcov & Hsum) Hinh. unfold Reports.groupStep.
  destruct (JsObject.own (AbsenteeRecord.fieldName r) acc) as [v|] eqn:Hown.
  - destruct (own_Some _ (fun l => (l ++ [r])%list) _ _ Hown)
      as (a & b & -> & ->).
    eexists. split; [reflexivity |].
    rewrite map_app in Hnd. cbn [map fst] in Hnd.
    pose proof (NoDup_remove_2 _ _ _ Hnd) as Hnot.
    apply Forall_app in Hall as [Ha Hb].
    inversion Hb as [|? ? [Hv Hne] Hb']; subst. cbn [fst snd] in *.
    repeat split.
    + rewrite map_app. exact Hnd.
    + apply Forall_app. split.
      * apply groups_keep_other_fields; [|exact Ha].
        intros C. apply Hnot. apply in_or_app. now left.
      * constructor.
        -- cbn [fst snd]. split; [now rewrite recordsOfField_same, Hv |].
           now destruct v.
        -- apply groups_keep_other_fields; [|exact Hb'].
           intros C. apply Hnot. apply in_or_app. now right.
    + intros r' Hr'. rewrite map_app. cbn [map fst].
      apply in_app_or in Hr' as [Hr' | [<- | []]].
      * specialize (Hcov r' Hr'). now rewrite map_app in Hcov.
      * apply in_or_app. right. now left.
    + rewrite map_app, list_sum_app in *. cbn [map list_sum fold_right snd] in *.
      rewrite !length_app. cbn [length]. lia.
  - rewrite Hinh. eexists. split; [reflexivity |].
    apply own_None in Hown. unfold JsObject.define. repeat split.
    + rewrite map_app. cbn [map fst].
      apply (Permutation_NoDup (Permutation_cons_append _ _)).
      now constructor.
    + apply Forall_app. split.
      * now apply groups_keep_other_fields.
      * constructor; [|constructor]. cbn [fst snd]. split; [|discriminate].
        rewrite recordsOfField_same.
        replace (recordsOfField (AbsenteeRecord.fieldName r) done) with
          (@nil AbsenteeRecord.t); [reflexivity |].
        symmetry. apply filter_none. intros r' Hr'.
        destruct (String.eqb_spec (AbsenteeRecord.fieldName r')
                    (AbsenteeRecord.fieldName r)) as [E|]; [|reflexivity].
        destruct Hown. rewrite <- E. now apply Hcov.
    + intros r' Hr'. rewrite map_app. apply in_or_app.
      apply in_app_or in Hr' as [Hr' | [<- | []]].
      * left. now apply Hcov.
      * right. now left.
    + rewrite map_app, list_sum_app, length_app. cbn. lia.
Qed.

Lemma reduceGroups_ok (l : list AbsenteeRecord.t) :
  forall done acc,
    groupsOf done acc ->
    Forall (fun r => JsObject.inherited (AbsenteeRecord.fieldName r) = false) l ->
    exists acc', Reports.reduceGroups acc l = Ok acc'
                 /\ groupsOf (done ++ l) acc'.
Proof.
  induction l as [|r l IH]; intros done acc Hinv Hall.
  - exists acc. now rewrite app_nil_r.
  - inversion Hall as [|? ? Hr Hl]; subst.
    destruct (groupStep_ok done acc r Hinv Hr) as (acc1 & E1 & Hinv1).
    destruct (IH _ _ Hinv1 Hl) as (acc' & E & Hinv').
    exists acc'. cbn [Reports.reduceGroups]. rewrite E1.
    split; [exact E |]. now rewrite <- app_assoc in Hinv'.
Qed.

Lemma groupsOf_nil : groupsOf [] [].
Proof. repeat split; try constructor. intros r []. Qed.

(** X18.  As long as no field name is a property inherited from
    [Object.prototype], [getGroupedAbsentees] partitions the list by
    [fieldName]: distinct group names, every record's field has its group,
    each group holds exactly the records of its field in their input order,
    its count is the length of its records, and the counts add up to the
    number of records. *)
Lemma getGroupedAbsentees_partitions (absentees : list AbsenteeRecord.t) :
  Forall (fun r => JsObject.inherited (AbsenteeRecord.fieldName r) = false)
         absentees ->
  exists groups, Reports.getGroupedAbsentees absentees = Ok groups
                 /\ partitionsByField absentees groups.
Proof.
  intros Hall.
  destruct (reduceGroups_ok absentees [] [] groupsOf_nil Hall)
    as (acc & E & Hnd & Hforall & Hcov & Hsum).
  cbn [app] in *. unfold Reports.getGroupedAbsentees. rewrite E.
  eexists. split; [reflexivity |].
  pose proof (entries_permutation acc) as P. symmetry in P.
  unfold partitionsByField. rewrite !map_map. cbn [Group.fieldName Group.count].
  repeat split.
  - apply (Permutation_NoDup (Permutation_map fst P) Hnd).
  - intros r Hr. apply (Permutation_in _ (Permutation_map fst P)).
    now apply Hcov.
  - apply Forall_map. cbn [Group.fieldName Group.records Group.count].
    apply (Permutation_Forall P). revert Hforall. apply Forall_impl.
    intros e [H1 H2]. now repeat split.
  - rewrite <- Hsum. apply Permutation_list_sum.
    apply Permutation_map. now symmetry.
Qed.

Lemma getGroupedAbsentees_partitions_witness :
  exists groups,
    Reports.getGroupedAbsentees
      [Sample.record "Data Science" "Statistics" "2024-03-10 08:00:00";
       Sample.record "100" "Algorithms" "2024-03-10 10:00:00";
       Sample.record "Data Science" "Databases" "2024-03-11 08:00:00"]
    = Ok groups
    /\ partitionsByField
         [Sample.record "Data Science" "Statistics" "2024-03-10 08:00:00";
          Sample.record "100" "Algorithms" "2024-03-10 10:00:00";
          Sample.record "Data Science" "Databases" "2024-03-11 08:00:00"]
         groups.
Proof.
  apply getGroupedAbsentees_partitions. repeat constructor.
Defined.

Example groups_of_sample :
  Reports.getGroupedAbsentees
    [Sample.record "Data Science" "Statistics" "2024-03-10 08:00:00";
     Sample.record "100" "Algorithms" "2024-03-10 10:00:00";
     Sample.record "Data Science" "Databases" "2024-03-11 08:00:00"]
  = Ok [ {| Group.fieldName := "100";
            Group.records :=
              [Sample.record "100" "Algorithms" "2024-03-10 10:00:00"];
            Group.count := 1 |};
         {| Group.fieldName := "Data Science";
            Group.records :=
              [Sample.record "Data Science" "Statistics" "2024-03-10 08:00:00";
               Sample.record "Data Science" "Databases" "2024-03-11 08:00:00"];
            Group.count := 2 |} ].
Proof. reflexivity. Qed.

Lemma groupStep_keeps_names (acc acc' : JsObject.t (list AbsenteeRecord.t))
      (r : AbsenteeRecord.t) :
  Forall (fun e => JsObject.inherited (fst e) = false) acc ->
  Reports.groupStep acc r = Ok acc' ->
  JsObject.inherited (AbsenteeRecord.fieldName r) = false
  /\ Forall (fun e => JsObject.inherited (fst e) = false) acc'.
Proof.
  intros Hacc. unfold Reports.groupStep.
  destruct (JsObject.own (AbsenteeRecord.fieldName r) acc) as [v|] eqn:Hown.
  - destruct (own_Some _ (fun l => (l ++ [r])%list) _ _ Hown)
      as (a & b & -> & ->).
    intros [= <-]. apply Forall_app in Hacc as [Ha Hb].
    inversion Hb as [|? ? Hk Hb']; subst. cbn [fst] in Hk.
    split; [exact Hk |]. apply Forall_app. split; [exact Ha |].
    now constructor.
  - destruct (JsObject.inherited (AbsenteeRecord.fieldName r)) eqn:Hinh;
      [discriminate |].
    intros [= <-]. split; [reflexivity |].
    apply Forall_app. split; [exact Hacc |]. now repeat constructor.
Qed.

Lemma groupStep_throws (acc : JsObject.t (list AbsenteeRecord.t))
      (r : AbsenteeRecord.t) (e : string) :
  Reports.groupStep acc r = Throw e ->
  e = "TypeError: acc[key].push is not a function".
Proof.
  unfold Reports.groupStep.
  destruct (JsObject.own _ acc); [discriminate |].
  destruct (JsObject.inherited _); [now intros [= <-] | discriminate].
Qed.

Lemma reduceGroups_throws (l : list AbsenteeRecord.t) :
  forall acc,
    Forall (fun e => JsObject.inherited (fst e) = false) acc ->
    Exists (fun r => JsObject.inherited (AbsenteeRecord.fieldName r) = true) l ->
    Reports.reduceGroups acc l
    = Throw "TypeError: acc[key].push is not a function".
Proof.
  induction l as [|r l IH]; intros acc Hacc Hex; [inversion Hex |].
  cbn [Reports.reduceGroups].
  destruct (Reports.groupStep acc r) as [acc'|e] eqn:Hstep.
  - destruct (groupStep_keeps_names acc acc' r Hacc Hstep) as [Hr Hacc'].
    apply IH; [exact Hacc' |].
    inversion Hex as [? ? Hhd | ? ? Htl]; subst; [congruence | exact Htl].
  - now rewrite (groupStep_throws acc r e Hstep).
Qed.

(** X19.  As soon as one record has a field name inherited from
    [Object.prototype], the grouping throws, wherever the record stands and
    whatever the other records are. *)
Lemma getGroupedAbsentees_throws (absentees : list AbsenteeRecord.t) :
  Exists (fun r => JsObject.inherited (AbsenteeRecord.fieldName r) = true)
         absentees ->
  Reports.getGroupedAbsentees absentees
  = Throw "TypeError: acc[key].push is not a function".
Proof.
  intros Hex. unfold Reports.getGroupedAbsentees.
  now rewrite (reduceGroups_throws absentees [] (Forall_nil _) Hex).
Qed.

(** C10.  A record whose field name is a property every object inherits
    (here ["constructor"]) is put in no group: [acc[key]] is then the
    inherited function, no array is created, and the call of [push] throws,
    so no grouping is produced at all. *)
Theorem grouping_throws_on_inherited_name :
  Reports.getGroupedAbsentees
    [Sample.record "Computer Science" "Algorithms" "2024-03-10 08:00:00";
     Sample.record "constructor" "Algorithms" "2024-03-10 08:00:00"]
  = Throw "TypeError: acc[key].push is not a function".
Proof. reflexivity. Qed.

(** ** Durations and totals are never below their floor *)

Lemma max_at_least_one (a : jsnum) : nanOrAtLeast 1 (JsNum.max a (of_Z 1)).
Proof.
  destruct a as [x|]; [|exact I]. unfold JsNum.max, of_Z.
  destruct (Qle_bool x (inject_Z 1)) eqn:E; simpl.
  - apply Qle_refl.
  - apply Qlt_le_weak. now apply Qle_bool_false.
Qed.

(** X1.  Whatever the time slot is (a string, well formed or not, [null],
    a number), [calculateSessionDuration] returns [NaN] or a number of
    hours that is at least 1: never zero, never negative. *)
Theorem calculateSessionDuration_at_least_one (tz : Z) (timeSlot : jsval) :
  nanOrAtLeast 1 (calculateSessionDuration tz timeSlot).
Proof.
  unfold calculateSessionDuration.
  destruct (negb (truthy timeSlot)); [simpl; discriminate |].
  destruct timeSlot as [| |b|n|s]; try (simpl; discriminate).
  cbn [sessionDurationBody]. apply max_at_least_one.
Qed.

Lemma nanOrAtLeast_add (n m : Z) (a b : jsnum) :
  nanOrAtLeast n a -> nanOrAtLeast m b -> nanOrAtLeast (n + m) (a + b)%js.
Proof.
  destruct a as [x|], b as [y|]; simpl; try tauto.
  intros Hx Hy. rewrite inject_Z_plus. now apply Qplus_le_compat.
Qed.

Lemma reduce_at_least (tz : Z) (l : list Absence.t) :
  forall (n : Z) (acc : jsnum),
    nanOrAtLeast n acc ->
    nanOrAtLeast (n + Z.of_nat (length l))
      (fold_left (fun sum session => (sum + Session.duration session)%js)
                 (map (toSession tz) l) acc).
Proof.
  induction l as [|r l IH]; intros n acc Hacc.
  - simpl. now rewrite Z.add_0_r.
  - cbn [map fold_left length].
    replace (n + Z.of_nat (S (length l))) with (n + 1 + Z.of_nat (length l))
      by lia.
    apply IH. apply nanOrAtLeast_add; [exact Hacc |].
    apply calculateSessionDuration_at_least_one.
Qed.

(** X2.  In every entry of the aggregation the total is [NaN] or at least
    the number of absent sessions of the entry: each session counts for an
    hour or more. *)
Theorem totalAbsentHours_at_least_sessions (tz : Z)
        (students : list Student.t) (absenteeData : list Absence.t) :
  Forall (fun entry =>
            nanOrAtLeast (Z.of_nat (length (Hours.absentSessions entry)))
                         (Hours.totalAbsentHours entry))
         (hoursData tz students absenteeData).
Proof.
  unfold hoursData. apply Forall_map. apply Forall_forall. intros student _.
  cbn [studentHours Hours.totalAbsentHours Hours.absentSessions].
  rewrite length_map.
  apply (reduce_at_least tz (filter (matchesStudent student) absenteeData) 0).
  simpl. discriminate.
Qed.

Lemma reduce_from_NaN (l : list Session.t) :
  fold_left (fun sum session => (sum + Session.duration session)%js) l NaN
  = NaN.
Proof. induction l as [|s l IH]; simpl; [reflexivity | exact IH]. Qed.

Lemma reduce_with_NaN (l : list Session.t) (acc : jsnum) :
  Exists (fun session => Session.duration session = NaN) l ->
  fold_left (fun sum session => (sum + Session.duration session)%js) l acc
  = NaN.
Proof.
  intros Hex. revert acc. induction Hex as [s l Hs | s l _ IH]; intros acc.
  - cbn [fold_left]. rewrite Hs.
    replace (acc + NaN)%js with NaN by now destruct acc.
    apply reduce_from_NaN.
  - cbn [fold_left]. apply IH.
Qed.

(** X3.  One absentee record of the student with a time slot whose duration
    is [NaN] makes the student's total [NaN], whatever the other records
    are; the row is then labelled Low and is not counted as high risk. *)
Theorem malformed_slot_hides_risk (tz : Z) (absenteeData : list Absence.t)
        (student : Student.t) (record : Absence.t) :
  In record absenteeData ->
  belongsTo student record ->
  calculateSessionDuration tz (Absence.timeSlot record) = NaN ->
  let entry := studentHours tz absenteeData student in
  Hours.totalAbsentHours entry = NaN
  /\ riskLevel (Hours.totalAbsentHours entry) = "Low"
  /\ forall st, ~ In entry (getHighRiskStudents st).
Proof.
  intros Hin Hbel Hnan entry.
  assert (Hours.totalAbsentHours entry = NaN) as E.
  { cbn [entry studentHours Hours.totalAbsentHours].
    apply reduce_with_NaN. apply Exists_exists.
    exists (toSession tz record). split; [|exact Hnan].
    apply in_map. apply filter_In. split; [exact Hin |].
    now apply matchesStudent_spec. }
  split; [exact E |]. split; [now rewrite E |].
  intros st Hst. unfold getHighRiskStudents in Hst.
  apply filter_In in Hst as [_ Hst]. rewrite E in Hst. discriminate Hst.
Qed.

Lemma malformed_slot_hides_risk_witness :
  let entry :=
    studentHours 0
      [Sample.absence (JString "08:00 - 12:00");
       Sample.absence (JString "TBA");
       Sample.absence (JString "08:00 - 16:00")] Sample.student in
  Hours.totalAbsentHours entry = NaN
  /\ riskLevel (Hours.totalAbsentHours entry) = "Low"
  /\ forall st, ~ In entry (getHighRiskStudents st).
Proof.
  apply (malformed_slot_hides_risk 0
           [Sample.absence (JString "08:00 - 12:00");
            Sample.absence (JString "TBA");
            Sample.absence (JString "08:00 - 16:00")]
           Sample.student (Sample.absence (JString "TBA"))).
  - simpl. tauto.
  - left. reflexivity.
  - reflexivity.
Defined.

(** X4.  A record that belongs to none of the listed students changes
    nothing: the aggregation is the same with and without it, wherever it
    stands in the data. *)
Theorem hoursData_ignores_unmatched (tz : Z) (students : list Student.t)
        (before after : list Absence.t) (record : Absence.t) :
  (forall student, In student students -> ~ belongsTo student record) ->
  hoursData tz students (before ++ record :: after)
  = hoursData tz students (before ++ after).
Proof.
  intros Hnone. unfold hoursData. apply map_ext_in. intros student Hs.
  unfold studentHours. rewrite !filter_app. cbn [filter].
  destruct (matchesStudent student record) eqn:M; [|reflexivity].
  apply matchesStudent_spec in M. now destruct (Hnone student Hs).
Qed.

Lemma hoursData_ignores_unmatched_witness :
  hoursData 0 [Sample.otherStudent]
    ([] ++ Sample.absence (JString "08:00 - 10:00") :: [])
  = hoursData 0 [Sample.otherStudent] ([] ++ []).
Proof.
  apply (hoursData_ignores_unmatched 0 [Sample.otherStudent] [] []
           (Sample.absence (JString "08:00 - 10:00"))).
  intros student [<- | []] [H | H]; discriminate H.
Defined.

(** ** The header tiles and the table agree *)

Lemma high_risk_iff_label (h : jsnum) :
  geb h (of_Z 10) = true
  <-> riskLevel h = "Critical" \/ riskLevel h = "High".
Proof.
  unfold riskLevel. destruct h as [q|]; simpl.
  - unfold inject_Z.
    destruct (Qle_bool (15 # 1) q) eqn:E15.
    + apply Qle_bool_iff in E15. split; [now left |]. intros _.
      apply Qle_bool_iff. lra.
    + destruct (Qle_bool (10 # 1) q) eqn:E10.
      * split; [now right | reflexivity].
      * destruct (Qle_bool (5 # 1) q);
          (split; [discriminate | intros [H | H]; discriminate H]).
  - split; [discriminate | intros [H | H]; discriminate H].
Qed.

(** X5.  The students counted in the "High Risk" tile and alert are exactly
    the loaded students whose row carries the label Critical or High; this
    holds for a [NaN] total too (not counted, labelled Low). *)
Theorem getHighRiskStudents_are_critical_or_high (st : State) (data : Hours.t) :
  In data (getHighRiskStudents st)
  <-> In data (absenteeHours st)
      /\ (riskLevel (Hours.totalAbsentHours data) = "Critical"
          \/ riskLevel (Hours.totalAbsentHours data) = "High").
Proof.
  unfold getHighRiskStudents. rewrite filter_In.
  now rewrite high_risk_iff_label.
Qed.

(** X6.  The "Recent Absences" cell of a student's row shows at most two
    sessions, "+N more sessions" accounts for all the others (shown plus N
    is the number of the student's absentee records), and "Perfect
    attendance!" appears exactly when no record belongs to the student. *)
Theorem recentAbsences_accounts_for_all (tz : Z)
        (absenteeData : list Absence.t) (student : Student.t) :
  let cell := recentAbsences (studentHours tz absenteeData student) in
  let n := length (filter (matchesStudent student) absenteeData) in
  (length (shown cell) <= 2)%nat
  /\ (length (shown cell) + match more cell with Some k => k | None => 0 end
      = n)%nat
  /\ (more cell = None <-> (n <= 2)%nat)
  /\ (perfectAttendance cell = true
      <-> forall r, In r absenteeData -> ~ belongsTo student r).
Proof.
  cbv zeta. unfold recentAbsences.
  cbn [studentHours Hours.absentSessions shown more perfectAttendance].
  rewrite length_firstn, length_map.
  set (l := filter (matchesStudent student) absenteeData).
  repeat split.
  - lia.
  - destruct (Nat.ltb_spec 2 (length l)); lia.
  - destruct (Nat.ltb_spec 2 (length l)); [discriminate | lia].
  - destruct (Nat.ltb_spec 2 (length l)); [lia | reflexivity].
  - intros H r Hr Hbel. apply Nat.eqb_eq in H.
    apply length_zero_iff_nil in H.
    assert (In r l) as Hl.
    { apply filter_In. split; [exact Hr | now apply matchesStudent_spec]. }
    rewrite H in Hl. destruct Hl.
  - intros H. apply Nat.eqb_eq. apply length_zero_iff_nil.
    apply filter_none. intros r Hr.
    destruct (matchesStudent student r) eqn:M; [|reflexivity].
    apply matchesStudent_spec in M. now destruct (H r Hr).
Qed.

(** ** Distinct values *)

Lemma existsb_eqb_In (x : string) (s : list string) :
  existsb (String.eqb x) s = true <-> In x s.
Proof.
  rewrite existsb_exists. split.
  - intros (y & Hy & E). apply String.eqb_eq in E. now subst.
  - intros H. exists x. split; [exact H | apply String.eqb_refl].
Qed.

Lemma setAdd_spec (s : list string) (x : string) :
  NoDup s ->
  NoDup (setAdd s x) /\ forall y, In y (setAdd s x) <-> In y s \/ y = x.
Proof.
  intros Hnd. unfold setAdd.
  destruct (existsb (String.eqb x) s) eqn:E.
  - apply existsb_eqb_In in E. split; [exact Hnd |].
    intros y. split; [now left | intros [H | ->]; assumption].
  - assert (~ In x s) as Hx.
    { intros C. apply existsb_eqb_In in C. congruence. }
    split.
    + apply (Permutation_NoDup (Permutation_cons_append s x)).
      now constructor.
    + intros y. rewrite in_app_iff. simpl. intuition.
Qed.

Lemma distinct_from (l : list string) :
  forall acc,
    NoDup acc ->
    NoDup (fold_left setAdd l acc)
    /\ forall y, In y (fold_left setAdd l acc) <-> In y acc \/ In y l.
Proof.
  induction l as [|x l IH]; intros acc Hnd; cbn [fold_left].
  - split; [exact Hnd |]. intros y. simpl. tauto.
  - destruct (setAdd_spec acc x Hnd) as [Hnd' Hin'].
    destruct (IH _ Hnd') as [Hnd'' Hin'']. split; [exact Hnd'' |].
    intros y. rewrite Hin'', Hin'. simpl. intuition.
Qed.

Lemma distinct_spec (l : list string) :
  NoDup (distinct l) /\ forall y, In y (distinct l) <-> In y l.
Proof.
  destruct (distinct_from l [] (NoDup_nil _)) as [Hnd Hin].
  split; [exact Hnd |]. intros y. rewrite (Hin y). simpl. tauto.
Qed.

(** X7.  The field selector offers every field of a loaded student once:
    [getUniqueFields] has no duplicate, and a field is in it exactly when
    some loaded row has that field. *)
Theorem getUniqueFields_each_field_once (st : State) :
  NoDup (getUniqueFields st)
  /\ forall f, In f (getUniqueFields st)
               <-> exists data, In data (absenteeHours st)
                                /\ Hours.field data = f.
Proof.
  unfold getUniqueFields.
  destruct (distinct_spec (map Hours.field (absenteeHours st))) as [Hnd Hin].
  split; [exact Hnd |]. intros f. rewrite Hin, in_map_iff.
  split; intros (data & H1 & H2); exists data; tauto.
Qed.

(** X8.  Choosing any field the selector offers never empties the table:
    the filtered rows are those of the chosen field (all rows for the empty
    field name) and there is at least one. *)
Theorem offered_field_has_rows (st : State) (f : string) :
  In f (getUniqueFields st) ->
  (0 < length (getFilteredData (setSelectedField f st)))%nat
  /\ Forall (fun data => f = "" \/ Hours.field data = f)
            (getFilteredData (setSelectedField f st)).
Proof.
  intros Hf. unfold getUniqueFields in Hf.
  apply (proj1 (proj2 (distinct_spec _) f)) in Hf.
  apply in_map_iff in Hf as (data & E & Hin).
  unfold getFilteredData, setSelectedField. cbn [selectedField absenteeHours].
  destruct (String.eqb_spec f "") as [-> | Hne].
  - split.
    + destruct (absenteeHours st); [destruct Hin | simpl; lia].
    + apply Forall_forall. intros; now left.
  - split.
    + assert (In data (filter (fun data => (Hours.field data =? f)%string)
                              (absenteeHours st))) as H.
      { apply filter_In. split; [exact Hin |]. now apply String.eqb_eq. }
      destruct (filter _ (absenteeHours st)); [destruct H | simpl; lia].
    + apply Forall_forall. intros d Hd. apply filter_In in Hd as [_ Hd].
      right. now apply String.eqb_eq.
Qed.

Lemma offered_field_has_rows_witness :
  (0 < length (getFilteredData
                 (setSelectedField "Computer Science"
                    {| absenteeHours := Sample.cachedHours; loading := false;
                       error := None; selectedField := "" |})))%nat
  /\ Forall (fun data => "Computer Science" = "" \/
                         Hours.field data = "Computer Science")
            (getFilteredData
               (setSelectedField "Computer Science"
                  {| absenteeHours := Sample.cachedHours; loading := false;
                     error := None; selectedField := "" |})).
Proof.
  apply (offered_field_has_rows
           {| absenteeHours := Sample.cachedHours; loading := false;
              error := None; selectedField := "" |} "Computer Science").
  simpl. tauto.
Defined.

(** ** The filters of the report *)

Lemma filter_twice {A : Type} (p q : A -> bool) (l : list A) :
  filter p (filter q l) = filter (fun x => q x && p x) l.
Proof.
  induction l as [|x l IH]; simpl; [reflexivity |].
  destruct (q x); simpl; [destruct (p x) |]; now rewrite IH.
Qed.

Lemma applyFilters_as_passes (tz : Z) (filters : FilterState.t)
      (reportData : list AbsenteeRecord.t) :
  Reports.applyFilters tz filters reportData
  = filter (passes tz filters) reportData.
Proof.
  unfold Reports.applyFilters, passes.
  destruct (FilterState.fieldName filters =? "")%string;
    destruct (FilterState.level filters =? "")%string; cbn [negb orb];
    rewrite ?filter_twice; apply filter_ext; intros r; cbn [andb];
    now rewrite ?andb_true_r, ?andb_assoc.
Qed.

(** X9.  After the three filtering steps a record is in the report exactly
    when it came from the data, has the chosen field (if one is chosen),
    has the chosen level (if one is chosen) and passes the date test. *)
Theorem applyFilters_keeps (tz : Z) (filters : FilterState.t)
        (reportData : list AbsenteeRecord.t) (record : AbsenteeRecord.t) :
  In record (Reports.applyFilters tz filters reportData)
  <-> In record reportData
      /\ (FilterState.fieldName filters = ""
          \/ AbsenteeRecord.fieldName record = FilterState.fieldName filters)
      /\ (FilterState.level filters = ""
          \/ AbsenteeRecord.level record = FilterState.level filters)
      /\ Reports.inDateRange tz filters record = true.
Proof.
  rewrite applyFilters_as_passes, filter_In. unfold passes.
  rewrite !andb_true_iff, !orb_true_iff, !String.eqb_eq. tauto.
Qed.

(** X10.  Filtering is idempotent: applying the same filters to an already
    filtered report (such as the list stored under
    ['rollcall_cached_reports']) gives that report back unchanged. *)
Theorem applyFilters_idempotent (tz : Z) (filters : FilterState.t)
        (reportData : list AbsenteeRecord.t) :
  Reports.applyFilters tz filters (Reports.applyFilters tz filters reportData)
  = Reports.applyFilters tz filters reportData.
Proof.
  rewrite !applyFilters_as_passes, filter_twice. apply filter_ext.
  intros r. now destruct (passes tz filters r).
Qed.

Lemma geb_getTime (x y : JsDate.t) :
  geb (JsDate.getTime x) (JsDate.getTime y) = true
  <-> exists a b, x = Some a /\ y = Some b /\ b <= a.
Proof.
  destruct x as [a|], y as [b|]; cbn [JsDate.getTime].
  - rewrite geb_of_Z, Z.leb_le. split.
    + intros H. now exists a, b.
    + now intros (a' & b' & [= ->] & [= ->] & H).
  - split; [discriminate | now intros (? & ? & _ & [=] & _)].
  - split; [discriminate | now intros (? & ? & [=] & _)].
  - split; [discriminate | now intros (? & ? & [=] & _)].
Qed.

(** The date test in general: the three dates must be valid, and the
    record must lie between [dateFrom] and the end of the local day of
    [dateTo]. *)
Lemma inDateRange_true (tz : Z) (filters : FilterState.t)
      (record : AbsenteeRecord.t) :
  Reports.inDateRange tz filters record = true
  <-> exists a b t,
        JsDate.parse tz (FilterState.dateFrom filters) = Some a
        /\ JsDate.parse tz (FilterState.dateTo filters) = Some b
        /\ JsDate.parse tz (AbsenteeRecord.date record) = Some t
        /\ a <= t <= endOfDay tz ((b + tz) / JsDate.msPerDay).
Proof.
  unfold Reports.inDateRange, Reports.fromDate, Reports.toDate, leb.
  rewrite andb_true_iff, !geb_getTime.
  destruct (JsDate.parse tz (FilterState.dateTo filters)) as [b|];
    cbn [JsDate.setHours_23_59_59_999].
  - split.
    + intros ((t & a & Ht & Ha & H1) & (u & t' & Hu & Ht' & H2)).
      exists a, b, t. rewrite Ht in Ht'. injection Ht' as <-.
      injection Hu as <-. repeat split; try assumption.
      unfold endOfDay, JsDate.msPerDay in *. lia.
    + intros (a & b' & t & Ha & [= <-] & Ht & H1 & H2). split.
      * now exists t, a.
      * eexists _, t. repeat split; [exact Ht |].
        unfold endOfDay, JsDate.msPerDay in *. lia.
  - split.
    + now intros (_ & (? & ? & [=] & _)).
    + now intros (? & ? & ? & _ & [=] & _).
Qed.

(** X11.  When [dateFrom] or [dateTo] is not a valid date (a cleared date
    input gives the empty string), the report is empty whatever the data:
    nothing passes the date test, and no error is raised. *)
Theorem applyFilters_invalid_date (tz : Z) (filters : FilterState.t)
        (reportData : list AbsenteeRecord.t) :
  JsDate.parse tz (FilterState.dateFrom filters) = None
  \/ JsDate.parse tz (FilterState.dateTo filters) = None ->
  Reports.applyFilters tz filters reportData = []
  /\ forall api localRecords,
       Reports.absentees
         (fst (Reports.loadAbsenteeReport tz filters api localRecords)) = []
       /\ Reports.error
            (fst (Reports.loadAbsenteeReport tz filters api localRecords))
          = None.
Proof.
  intros Hbad.
  assert (forall data, Reports.applyFilters tz filters data = []) as E.
  { intros data. rewrite applyFilters_as_passes. apply filter_none.
    intros r _. unfold passes.
    destruct (Reports.inDateRange tz filters r) eqn:D;
      [|now rewrite andb_false_r].
    apply inDateRange_true in D as (a & b & t & Ha & Hb & _).
    destruct Hbad; congruence. }
  split; [apply E |]. intros api localRecords.
  unfold Reports.loadAbsenteeReport. cbn [fst Reports.absentees Reports.error].
  split; [apply E | reflexivity].
Qed.

Lemma applyFilters_invalid_date_witness :
  Reports.applyFilters 0 (Sample.filters "" "2024-03-10")
    [Sample.record "Computer Science" "Algorithms" "2024-03-10 08:00:00"] = []
  /\ forall api localRecords,
       Reports.absentees
         (fst (Reports.loadAbsenteeReport 0 (Sample.filters "" "2024-03-10")
                 api localRecords)) = []
       /\ Reports.error
            (fst (Reports.loadAbsenteeReport 0 (Sample.filters "" "2024-03-10")
                    api localRecords))
          = None.
Proof.
  apply (applyFilters_invalid_date 0 (Sample.filters "" "2024-03-10")).
  left. reflexivity.
Defined.

(** X12.  In a zone at a constant offset from UTC, whatever the offset,
    when [dateFrom] is a day or more after [dateTo] the report is empty:
    the end of the local day of [dateTo] is before [dateFrom]. *)
Theorem applyFilters_reversed_range (tz : Z) (filters : FilterState.t)
        (reportData : list AbsenteeRecord.t) (a b : Z) :
  JsDate.parse tz (FilterState.dateFrom filters) = Some a ->
  JsDate.parse tz (FilterState.dateTo filters) = Some b ->
  b + JsDate.msPerDay <= a ->
  Reports.applyFilters tz filters reportData = [].
Proof.
  intros Ha Hb Hab. rewrite applyFilters_as_passes. apply filter_none.
  intros r _. unfold passes.
  destruct (Reports.inDateRange tz filters r) eqn:D;
    [|now rewrite andb_false_r].
  apply inDateRange_true in D as (a' & b' & t & Ha' & Hb' & _ & H1 & H2).
  rewrite Ha in Ha'. rewrite Hb in Hb'. injection Ha' as <-. injection Hb' as <-.
  unfold endOfDay, JsDate.msPerDay in *.
  pose proof (Z.mul_div_le (b + tz) 86400000 ltac:(lia)). lia.
Qed.

Lemma applyFilters_reversed_range_witness :
  Reports.applyFilters Sample.utcMinus5 (Sample.filters "2024-03-11" "2024-03-10")
    [Sample.record "Computer Science" "Algorithms" "2024-03-10 20:00:00";
     Sample.record "Computer Science" "Algorithms" "2024-03-11 08:00:00"]
  = [].
Proof.
  apply (applyFilters_reversed_range Sample.utcMinus5
           (Sample.filters "2024-03-11" "2024-03-10") _
           (19793 * JsDate.msPerDay) (19792 * JsDate.msPerDay)).
  - reflexivity.
  - reflexivity.
  - vm_compute. discriminate.
Defined.

Lemma inDateRange_east_of_utc_witness :
  Reports.inDateRange Sample.utcPlus1 (Sample.filters "2024-03-10" "2024-03-11")
    (Sample.record "Computer Science" "Algorithms" "2024-03-11 23:30:00") = true
  <-> startOfDay Sample.utcPlus1 19792 + Sample.utcPlus1
      <= 19793 * JsDate.msPerDay + 22 * 3600000 + 30 * 60000
      <= endOfDay Sample.utcPlus1 19793.
Proof.
  apply (inDateRange_east_of_utc Sample.utcPlus1
           (Sample.filters "2024-03-10" "2024-03-11")
           (Sample.record "Computer Science" "Algorithms" "2024-03-11 23:30:00")
           19792 19793).
  - vm_compute. split; [discriminate | reflexivity].
  - reflexivity.
  - reflexivity.
  - reflexivity.
Defined.

Lemma inDateRange_west_of_utc_witness :
  Reports.inDateRange Sample.utcMinus5 (Sample.filters "2024-03-10" "2024-03-11")
    (Sample.record "Computer Science" "Algorithms" "2024-03-11 08:00:00") = true
  <-> startOfDay 0 19792
      <= 19793 * JsDate.msPerDay + 13 * 3600000
      <= endOfDay Sample.utcMinus5 (19793 - 1).
Proof.
  apply (inDateRange_west_of_utc Sample.utcMinus5
           (Sample.filters "2024-03-10" "2024-03-11")
           (Sample.record "Computer Science" "Algorithms" "2024-03-11 08:00:00")
           19792 19793).
  - vm_compute. split; [discriminate | reflexivity].
  - reflexivity.
  - reflexivity.
  - reflexivity.
Defined.

(** ** Groups, their order and their number *)

Lemma getGroupedAbsentees_throws_witness :
  Reports.getGroupedAbsentees
    [Sample.record "Data Science" "Statistics" "2024-03-10 08:00:00";
     Sample.record "toString" "Algorithms" "2024-03-10 10:00:00";
     Sample.record "Data Science" "Databases" "2024-03-11 08:00:00"]
  = Throw "TypeError: acc[key].push is not a function".
Proof.
  apply getGroupedAbsentees_throws.
  apply Exists_cons_tl. apply Exists_cons_hd. reflexivity.
Defined.

Lemma own_In {V : Type} (key : string) (o : JsObject.t V) (v : V) :
  JsObject.own key o = Some v -> In key (map fst o).
Proof.
  intros H. destruct (own_Some key (fun x => x) o v H) as (a & b & -> & _).
  rewrite map_app. apply in_or_app. right. now left.
Qed.

(** The names of the table are the distinct field names met, in the order
    in which they were first met. *)
Lemma reduceGroups_keys (l : list AbsenteeRecord.t) :
  forall acc acc',
    Reports.reduceGroups acc l = Ok acc' ->
    map fst acc'
    = fold_left setAdd (map AbsenteeRecord.fieldName l) (map fst acc).
Proof.
  induction l as [|r l IH]; intros acc acc'; cbn [Reports.reduceGroups].
  - now intros [= <-].
  - destruct (Reports.groupStep acc r) as [acc1|e] eqn:Hstep; [|discriminate].
    intros H. rewrite (IH _ _ H). cbn [map fold_left]. f_equal.
    unfold Reports.groupStep in Hstep. unfold setAdd.
    destruct (JsObject.own (AbsenteeRecord.fieldName r) acc) as [v|] eqn:Hown.
    + injection Hstep as <-.
      pose proof (own_In _ _ _ Hown) as Hin.
      apply existsb_eqb_In in Hin. rewrite Hin.
      destruct (own_Some _ (fun x => (x ++ [r])%list) _ _ Hown)
        as (a & b & -> & ->).
      now rewrite !map_app.
    + destruct (JsObject.inherited (AbsenteeRecord.fieldName r));
        [discriminate |].
      injection Hstep as <-. apply own_None in Hown.
      destruct (existsb (String.eqb (AbsenteeRecord.fieldName r)) (map fst acc))
        eqn:E.
      * apply existsb_eqb_In in E. now destruct Hown.
      * unfold JsObject.define. now rewrite map_app.
Qed.

Lemma entries_of_named {V : Type} (o : JsObject.t V) :
  Forall (fun e => JsObject.arrayIndex (fst e) = None) o ->
  JsObject.entries o = o.
Proof.
  unfold JsObject.entries, JsObject.named. intros H.
  assert (JsObject.indexed o = []) as ->.
  { induction H as [|[k v] o Hk Ho IH]; [reflexivity |].
    cbn [fst] in Hk. cbn [JsObject.indexed]. now rewrite Hk. }
  cbn [map app].
  induction H as [|[k v] o Hk Ho IH]; [reflexivity |].
  cbn [fst] in Hk. cbn [filter fst]. rewrite Hk. now rewrite IH.
Qed.

(** X13.  When no field name is inherited from [Object.prototype] and none
    is an array index (a canonical decimal number), the groups come in the
    order in which their field names first occur in the list: the group
    names are the distinct field names in order of first occurrence. *)
Theorem groups_in_order_of_first_occurrence
        (absentees : list AbsenteeRecord.t) :
  Forall (fun r =>
            JsObject.inherited (AbsenteeRecord.fieldName r) = false
            /\ JsObject.arrayIndex (AbsenteeRecord.fieldName r) = None)
         absentees ->
  exists groups,
    Reports.getGroupedAbsentees absentees = Ok groups
    /\ map Group.fieldName groups
       = distinct (map AbsenteeRecord.fieldName absentees).
Proof.
  intros Hall.
  assert (Forall (fun r => JsObject.inherited (AbsenteeRecord.fieldName r)
                           = false) absentees) as Hinh.
  { revert Hall. apply Forall_impl. now intros r [H _]. }
  destruct (reduceGroups_ok absentees [] [] groupsOf_nil Hinh)
    as (acc & E & _).
  pose proof (reduceGroups_keys absentees [] acc E) as Hkeys.
  cbn [map] in Hkeys. fold (distinct (map AbsenteeRecord.fieldName absentees))
    in Hkeys.
  unfold Reports.getGroupedAbsentees. rewrite E.
  eexists. split; [reflexivity |].
  rewrite map_map. cbn [Group.fieldName].
  rewrite entries_of_named; [exact Hkeys |].
  apply Forall_forall. intros e He.
  assert (In (fst e) (map fst acc)) as Hk by now apply in_map.
  rewrite Hkeys in Hk. apply (proj1 (proj2 (distinct_spec _) _)) in Hk.
  apply in_map_iff in Hk as (r & Er & Hr).
  rewrite Forall_forall in Hall. rewrite <- Er. now apply Hall.
Qed.

Lemma groups_in_order_of_first_occurrence_witness :
  exists groups,
    Reports.getGroupedAbsentees
      [Sample.record "Data Science" "Statistics" "2024-03-10 08:00:00";
       Sample.record "Computer Science" "Algorithms" "2024-03-10 10:00:00";
       Sample.record "Data Science" "Databases" "2024-03-11 08:00:00"]
    = Ok groups
    /\ map Group.fieldName groups
       = distinct
           (map AbsenteeRecord.fieldName
              [Sample.record "Data Science" "Statistics" "2024-03-10 08:00:00";
               Sample.record "Computer Science" "Algorithms" "2024-03-10 10:00:00";
               Sample.record "Data Science" "Databases" "2024-03-11 08:00:00"]).
Proof.
  apply groups_in_order_of_first_occurrence. repeat constructor.
Defined.

(** X14.  The "Fields Affected" tile and the grouped display agree: when
    the grouping succeeds, the number of groups is the number of distinct
    field names counted by the tile. *)
Theorem fieldsAffected_counts_groups (absentees : list AbsenteeRecord.t)
        (groups : list Group.t) :
  Reports.getGroupedAbsentees absentees = Ok groups ->
  length groups = Summary.fieldsAffected absentees.
Proof.
  unfold Reports.getGroupedAbsentees, Summary.fieldsAffected.
  destruct (Reports.reduceGroups [] absentees) as [acc|e] eqn:E;
    [|discriminate].
  intros [= <-]. rewrite length_map.
  rewrite (Permutation_length (entries_permutation acc)).
  pose proof (reduceGroups_keys absentees [] acc E) as Hkeys.
  unfold distinct. cbn [map] in Hkeys. rewrite <- Hkeys.
  now rewrite length_map.
Qed.

Lemma fieldsAffected_counts_groups_witness :
  length
    [ {| Group.fieldName := "100";
         Group.records :=
           [Sample.record "100" "Algorithms" "2024-03-10 10:00:00"];
         Group.count := 1 |};
      {| Group.fieldName := "Data Science";
         Group.records :=
           [Sample.record "Data Science" "Statistics" "2024-03-10 08:00:00";
            Sample.record "Data Science" "Databases" "2024-03-11 08:00:00"];
         Group.count := 2 |} ]
  = Summary.fieldsAffected
      [Sample.record "Data Science" "Statistics" "2024-03-10 08:00:00";
       Sample.record "100" "Algorithms" "2024-03-10 10:00:00";
       Sample.record "Data Science" "Databases" "2024-03-11 08:00:00"].
Proof.
  apply fieldsAffected_counts_groups. reflexivity.
Defined.

(** ** Lines of the exported file *)

(** X15.  The number of lines of the exported text is the number of records
    plus one as soon as no exported field contains a line break; commas in
    the fields do not change it. *)
Theorem csv_line_count (tz : Z) (toLocaleDateString : JsDate.t -> string)
        (absentees : list AbsenteeRecord.t) :
  Forall (fun record =>
            forallb (lacks (ascii_of_nat 10))
                    (Reports.csvFields tz toLocaleDateString record) = true)
         absentees ->
  split Reports.newline (Reports.csvContent tz toLocaleDateString absentees)
  = Reports.csvLines tz toLocaleDateString absentees
  /\ length (split Reports.newline
               (Reports.csvContent tz toLocaleDateString absentees))
     = S (length absentees).
Proof.
  intros Hplain.
  assert (split Reports.newline
            (Reports.csvContent tz toLocaleDateString absentees)
          = Reports.csvLines tz toLocaleDateString absentees) as E.
  { unfold Reports.csvContent, Reports.newline.
    apply (split_join (ascii_of_nat 10) "").
    - discriminate.
    - unfold Reports.csvLines. constructor; [reflexivity |].
      apply Forall_forall. intros line Hline.
      apply in_map_iff in Hline as (record & <- & Hin).
      apply lacks_join; [reflexivity |].
      rewrite Forall_forall in Hplain. specialize (Hplain record Hin).
      rewrite forallb_forall in Hplain. now apply Forall_forall. }
  split; [exact E |]. rewrite E. apply csvLines_length.
Qed.

Lemma csv_line_count_witness :
  split Reports.newline
    (Reports.csvContent 0 Sample.localeDate
       [Sample.record "Computer Science" "Algorithms, Part I"
          "2024-03-10 08:00:00"])
  = Reports.csvLines 0 Sample.localeDate
      [Sample.record "Computer Science" "Algorithms, Part I"
         "2024-03-10 08:00:00"]
  /\ length (split Reports.newline
               (Reports.csvContent 0 Sample.localeDate
                  [Sample.record "Computer Science" "Algorithms, Part I"
                     "2024-03-10 08:00:00"]))
     = 2%nat.
Proof.
  apply (csv_line_count 0 Sample.localeDate
           [Sample.record "Computer Science" "Algorithms, Part I"
              "2024-03-10 08:00:00"]).
  repeat constructor.
Defined.

(** ** The SMS address *)

Lemma hexDigit_unreserved (n : nat) :
  (n < 16)%nat -> Uri.unreserved (Uri.hexDigit n) = true.
Proof.
  intros H. do 16 (destruct n as [|n]; [reflexivity |]). lia.
Qed.

Lemma unreserved_differs (c x : ascii) :
  Uri.unreserved c = false -> Uri.unreserved x = true -> Ascii.eqb c x = false.
Proof.
  intros Hc Hx. apply Ascii.eqb_neq. intros ->. congruence.
Qed.

Lemma escape_lacks (c x : ascii) :
  Uri.unreserved c = false -> c <> "%"%char ->
  lacks c (Uri.escape x) = true.
Proof.
  intros Hc Hp. unfold Uri.escape.
  destruct (Uri.unreserved x) eqn:Hx; cbn [lacks].
  - now rewrite (unreserved_differs c x Hc Hx).
  - apply Ascii.eqb_neq in Hp. rewrite Hp.
    pose proof (nat_ascii_bounded x) as Hb.
    rewrite !(unreserved_differs c _ Hc); try reflexivity;
      apply hexDigit_unreserved.
    + apply Nat.mod_upper_bound. lia.
    + apply Nat.Div0.div_lt_upper_bound. lia.
Qed.

Lemma encodeURIComponent_lacks (c : ascii) (s : string) :
  Uri.unreserved c = false -> c <> "%"%char ->
  lacks c (Uri.encodeURIComponent s) = true.
Proof.
  intros Hc Hp. induction s as [|x s IH]; [reflexivity |].
  cbn [Uri.encodeURIComponent]. rewrite lacks_append, IH.
  now rewrite (escape_lacks c x Hc Hp).
Qed.

(** X17.  Whatever the student's name is, the body of the SMS address (the
    part after [?body=]) contains only letters, digits, the marks
    [- _ . ! ~ * ' ( )] and [%]: no space, [&], [#], [?] or [=] of the name
    reaches the address unescaped. *)
Theorem smsBody_is_escaped (studentName : string) (c : ascii) :
  Uri.unreserved c = false -> c <> "%"%char ->
  lacks c (smsBody studentName) = true.
Proof.
  intros Hc Hp. unfold smsBody. now apply encodeURIComponent_lacks.
Qed.

Lemma smsBody_is_escaped_witness :
  lacks "&" (smsBody "Bella & Sons?body=x#") = true.
Proof.
  apply smsBody_is_escaped; [reflexivity | discriminate].
Defined.

Example sms_address :
  smsHref "677000000" "Ngo Bella"
  = "sms:677000000?body=Hello%2C%20this%20is%20regarding%20Ngo%20Bella's%20attendance.%20Please%20contact%20the%20school%20for%20more%20information.".
Proof. reflexivity. Qed.

Lemma calculateSessionDuration_no_separator_witness :
  calculateSessionDuration Sample.utcPlus1 (JString "8h-10h") = NaN.
Proof.
  apply calculateSessionDuration_no_separator; [discriminate | reflexivity].
Defined.
